(** * Coupon Reminder app: a shallow embedding of [app.py] and its properties

    The application is a Flask program over two SQL tables.  The embedding
    keeps the shape of the source:

    - a request handler is a function from the environment of the request
      (clocks, entropy, the URL builder) and the stored tables to the new
      tables and a response;
    - [db.session.add] followed by [db.session.commit] is a function of the
      tables which either returns the new tables or raises [IntegrityError],
      in which case nothing is written;
    - [secrets.token_hex] reads an explicit stream of random bytes;
    - Python [str] is [string]; [str.strip] and [str.upper] are modelled on
      the ASCII range (characters above 127 are kept as they are);
    - Python [int] is [Z]; [None] is [None]. *)

From Stdlib Require Import ZArith List String Ascii Bool Lia.
From Stdlib Require Import Sorting.Sorted Sorting.Permutation.
From Stdlib Require Import Strings.Byte.
Import ListNotations.

Open Scope string_scope.
Open Scope Z_scope.

(** ** Python builtins used by the handlers *)

Module Py.

(** Exceptions that the modelled code can raise. *)
Inductive exn : Type :=
| ValueError
| IntegrityError
| BuildError
| OverflowError
| OperationalError.

Definition result (A : Type) : Type := (exn + A)%type.

Definition ret {A} (a : A) : result A := inr a.
Definition raise {A} (e : exn) : result A := inl e.
Definition bind {A B} (m : result A) (k : A -> result B) : result B :=
  match m with
  | inl e => inl e
  | inr a => k a
  end.

(** Truth value of a [str]: non-empty. *)
Definition truthy (s : string) : bool := negb (String.eqb s "").

(** [x or ""] for an optional string: [x] when it is truthy. *)
Definition or_empty (x : option string) : string :=
  match x with
  | Some s => if truthy s then s else ""
  | None => ""
  end.

(** ASCII characters for which [str.isspace] holds:
    TAB, LF, VT, FF, CR, FS, GS, RS, US and SPACE. *)
Definition isspace (c : ascii) : bool :=
  let n := N_of_ascii c in
  ((9 <=? n) && (n <=? 13) || (28 <=? n) && (n <=? 32))%N.

Fixpoint lstrip (s : string) : string :=
  match s with
  | EmptyString => EmptyString
  | String c s' => if isspace c then lstrip s' else s
  end.

Fixpoint rstrip (s : string) : string :=
  match s with
  | EmptyString => EmptyString
  | String c s' =>
      match rstrip s' with
      | EmptyString => if isspace c then EmptyString else String c EmptyString
      | r => String c r
      end
  end.

(** [s.strip()] *)
Definition strip (s : string) : string := lstrip (rstrip s).

Definition upper_char (c : ascii) : ascii :=
  let n := N_of_ascii c in
  if ((97 <=? n) && (n <=? 122))%N then ascii_of_N (n - 32) else c.

(** [s.upper()] on ASCII text: a-z become A-Z. *)
Fixpoint upper (s : string) : string :=
  match s with
  | EmptyString => EmptyString
  | String c s' => String (upper_char c) (upper s')
  end.

Fixpoint take (n : nat) (s : string) : string :=
  match n, s with
  | S k, String c s' => String c (take k s')
  | _, _ => EmptyString
  end.

(** [s[:n]]: the first [n] characters, and for a negative [n] all but the
    last [-n]; a character is one byte, as in ASCII text. *)
Definition slice_to (s : string) (n : Z) : string :=
  if (0 <=? n)%Z then take (Z.to_nat n) s
  else take (Z.to_nat (Z.of_nat (String.length s) + n)) s.

(** [range(n)] as the list the loop runs over. *)
Definition range (n : nat) : list nat := seq 0 n.

End Py.

(** ** [datetime.date] and [datetime.datetime] *)

Module Datetime.

Record date : Type := mkDate { year : Z; month : Z; day : Z }.

Record datetime : Type :=
  mkDatetime { dt_date : date; hour : Z; minute : Z; second : Z; microsecond : Z }.

(** Dates compare as the triples (year, month, day). *)
Definition cmp (a b : date) : comparison :=
  match year a ?= year b with
  | Eq => match month a ?= month b with
          | Eq => day a ?= day b
          | r => r
          end
  | r => r
  end.

(** [a > b] *)
Definition gt (a b : date) : bool :=
  match cmp a b with Gt => true | _ => false end.

Definition digit (n : Z) : ascii := ascii_of_N (48 + Z.to_N (n mod 10)).

Definition two_digits (n : Z) : string :=
  String (digit (n / 10)) (String (digit n) EmptyString).

Definition four_digits (n : Z) : string :=
  String (digit (n / 1000)) (String (digit (n / 100)) (two_digits n)).

(** [d.isoformat()]: YYYY-MM-DD *)
Definition isoformat (d : date) : string :=
  four_digits (year d) ++ "-" ++ two_digits (month d) ++ "-" ++ two_digits (day d).

End Datetime.

(** ** The [secrets] module over an explicit entropy stream *)

Module Secrets.

(** The bytes the operating system hands out, in order. *)
Definition entropy : Type := nat -> byte.

Definition hexdigit (n : N) : ascii :=
  if (n <? 10)%N then ascii_of_N (48 + n) else ascii_of_N (87 + n).

(** [bytes.hex()]: two lowercase digits per byte. *)
Fixpoint hex (bs : list byte) : string :=
  match bs with
  | [] => EmptyString
  | b :: bs' =>
      let n := Byte.to_N b in
      String (hexdigit (n / 16)) (String (hexdigit (n mod 16)) (hex bs'))
  end.

(** [secrets.token_bytes(nbytes)] reading at position [pos]; a negative
    count is refused by [os.urandom]. *)
Definition token_bytes (rnd : entropy) (pos : nat) (nbytes : Z)
  : Py.result (list byte * nat) :=
  if (nbytes <? 0)%Z then Py.raise Py.ValueError
  else
    let n := Z.to_nat nbytes in
    Py.ret (map rnd (seq pos n), (pos + n)%nat).

(** [secrets.token_hex(nbytes)] *)
Definition token_hex (rnd : entropy) (pos : nat) (nbytes : Z)
  : Py.result (string * nat) :=
  Py.bind (token_bytes rnd pos nbytes) (fun '(bs, pos') => Py.ret (hex bs, pos')).

End Secrets.

(** ** Helpers of [app.py] *)

(** [generate_code(prefix, length)]; Python's [//] is floor division, as
    [Z.div] is. *)
Definition generate_code (rnd : Secrets.entropy) (pos : nat)
           (prefix : string) (length : Z) : Py.result (string * nat) :=
  Py.bind (Secrets.token_hex rnd pos (length / 2)) (fun '(h, pos') =>
    let token := Py.slice_to (Py.upper h) length in
    Py.ret (prefix ++ "-" ++ token, pos')).

(** ** Models *)

Module Offer.

Record t : Type := mk {
  id : option Z;
  restaurant : string;
  description : string;
  expires : Datetime.date;
  created_at : option Datetime.datetime
}.

End Offer.

Module CouponCode.

Record t : Type := mk {
  id : option Z;
  offer_id : option Z;
  restaurant : string;
  description : string;
  code : option string;
  expires : Datetime.date;
  created_at : option Datetime.datetime;
  redeemed_at : option Datetime.datetime;
  redeemed_by : option string
}.

(** [date.today() > self.expires] *)
Definition is_expired (today : Datetime.date) (self : t) : bool :=
  Datetime.gt today (expires self).

(** [self.redeemed_at is not None] *)
Definition is_redeemed (self : t) : bool :=
  match redeemed_at self with
  | Some _ => true
  | None => false
  end.

Definition set_redeemed_at (self : t) (v : option Datetime.datetime) : t :=
  mk (id self) (offer_id self) (restaurant self) (description self) (code self)
     (expires self) (created_at self) v (redeemed_by self).

Definition set_redeemed_by (self : t) (v : option string) : t :=
  mk (id self) (offer_id self) (restaurant self) (description self) (code self)
     (expires self) (created_at self) (redeemed_at self) v.

End CouponCode.

(** ** What a request sees outside the tables *)

Record Env : Type := mkEnv {
  today : Datetime.date;                  (* date.today() *)
  utcnow : Datetime.datetime;             (* datetime.utcnow() *)
  urandom : Secrets.entropy;              (* os.urandom *)
  url_for : string -> list (string * string) -> string;
  strptime : string -> string -> option Datetime.date
                                          (* datetime.strptime(s, fmt).date() *)
}.

(** ** The persistence layer: two tables and their constraints *)

Module Db.

Record t : Type := mk {
  offers : list Offer.t;
  coupons : list CouponCode.t
}.

Definition empty : t := mk [] [].

Definition opt_Z_eqb (a : option Z) (b : Z) : bool :=
  match a with
  | Some x => x =? b
  | None => false
  end.

Definition opt_string_eqb (a : option string) (b : string) : bool :=
  match a with
  | Some x => String.eqb x b
  | None => false
  end.

(** The key given to a new row: one more than the largest key in use. *)
Definition next_id (ids : list (option Z)) : Z :=
  1 + fold_right (fun i m => match i with Some x => Z.max x m | None => m end) 0 ids.

(** The column default [datetime.utcnow], used when no value was given. *)
Definition default_now (now : Datetime.datetime) (v : option Datetime.datetime)
  : option Datetime.datetime :=
  match v with
  | Some x => Some x
  | None => Some now
  end.

(** A Python [int] bound to a query as an INTEGER: the store holds 64-bit
    signed integers and refuses any other with OverflowError. *)
Definition bind_key (n : Z) : Py.result Z :=
  if (- 2 ^ 63 <=? n) && (n <? 2 ^ 63) then Py.ret n else Py.raise Py.OverflowError.

(** [Offer.query.get(offer_id)]: the row with that key. *)
Definition get_offer (db : t) (offer_id : Z) : option Offer.t :=
  find (fun o => opt_Z_eqb (Offer.id o) offer_id) (offers db).

(** [CouponCode.query.filter_by(code=code).first()] *)
Definition first_by_code (db : t) (code : string) : option CouponCode.t :=
  find (fun c => opt_string_eqb (CouponCode.code c) code) (coupons db).

(** [db.session.add(offer); db.session.commit()] for a new offer; the
    handlers leave the primary key to the store. *)
Definition add_offer (now : Datetime.datetime) (db : t) (o : Offer.t)
  : Py.result (t * Offer.t) :=
  let row := Offer.mk (Some (next_id (map Offer.id (offers db))))
                      (Offer.restaurant o) (Offer.description o)
                      (Offer.expires o) (default_now now (Offer.created_at o)) in
  Py.ret (mk (offers db ++ [row])%list (coupons db), row).

(** [db.session.add(coupon); db.session.commit()] for a new coupon: the
    column [code] is NOT NULL and UNIQUE; a refused row raises and nothing
    is stored. *)
Definition add_coupon (now : Datetime.datetime) (db : t) (c : CouponCode.t)
  : Py.result (t * CouponCode.t) :=
  match CouponCode.code c with
  | None => Py.raise Py.IntegrityError
  | Some k =>
      if existsb (fun r => opt_string_eqb (CouponCode.code r) k) (coupons db)
      then Py.raise Py.IntegrityError
      else
        let row := CouponCode.mk (Some (next_id (map CouponCode.id (coupons db))))
                     (CouponCode.offer_id c) (CouponCode.restaurant c)
                     (CouponCode.description c) (Some k) (CouponCode.expires c)
                     (default_now now (CouponCode.created_at c))
                     (CouponCode.redeemed_at c) (CouponCode.redeemed_by c) in
        Py.ret (mk (offers db) (coupons db ++ [row])%list, row)
  end.

Definition same_id (a b : option Z) : bool :=
  match a, b with
  | Some x, Some y => x =? y
  | _, _ => false
  end.

(** [db.session.commit()] after the attributes of a loaded coupon were
    assigned: an UPDATE of the row with that primary key. *)
Definition update_coupon (db : t) (c : CouponCode.t) : t :=
  mk (offers db)
     (map (fun r => if same_id (CouponCode.id r) (CouponCode.id c) then c else r)
          (coupons db)).

End Db.

(** ** Requests and responses *)

(** The value of a key of a JSON object that [jsonify] is given. *)
Inductive json_value : Type :=
| JNull
| JBool (b : bool)
| JString (s : string).

(** The handlers only build flat objects. *)
Definition json : Type := list (string * json_value).

Definition json_of_str (x : option string) : json_value :=
  match x with
  | Some s => JString s
  | None => JNull
  end.

Inductive Response : Type :=
| Json (status : Z) (body : json)     (* jsonify(...), status *)
| Text (status : Z) (body : string)   (* a string and a status *)
| Rendered (template : string)        (* render_template, 200 *)
| Redirect (location : string)        (* redirect, 302 *)
| Png (payload : string)              (* send_file of the QR image of a text *)
| Abort (status : Z)                  (* an HTTP exception *)
| Unhandled (e : Py.exn).             (* any other exception: 500 *)

Definition status_code (r : Response) : Z :=
  match r with
  | Json st _ => st
  | Text st _ => st
  | Rendered _ => 200
  | Redirect _ => 302
  | Png _ => 200
  | Abort st => st
  | Unhandled _ => 500
  end.

(** [request.form] and [request.args]: fields in order; [get] gives the
    first value of a key. *)
Definition MultiDict : Type := list (string * string).

Fixpoint get (d : MultiDict) (key : string) : option string :=
  match d with
  | [] => None
  | (k, v) :: d' => if String.eqb k key then Some v else get d' key
  end.

(** ** Routes *)

(** The loop of [claim_offer] over [range(10)]: the first candidate that no
    stored coupon carries is taken ([break]); when the range is used up,
    [code] is still [None]. *)
Fixpoint claim_loop (iters : list nat) (rnd : Secrets.entropy) (pos : nat)
         (db : Db.t) (prefix : string) : Py.result (option string) :=
  match iters with
  | [] => Py.ret None
  | _ :: rest =>
      match generate_code rnd pos prefix 10 with
      | inl e => Py.raise e
      | inr (candidate, pos') =>
          match Db.first_by_code db candidate with
          | None => Py.ret (Some candidate)
          | Some _ => claim_loop rest rnd pos' db prefix
          end
      end
  end.

(** The [CouponCode(...)] that [claim_offer] constructs. *)
Definition new_coupon (offer : Offer.t) (code : option string) : CouponCode.t :=
  CouponCode.mk None (Offer.id offer) (Offer.restaurant offer)
                (Offer.description offer) code (Offer.expires offer)
                None None None.

(** The object handed to [jsonify] by [claim_offer]. *)
Definition claim_json (env : Env) (code : string) (coupon : CouponCode.t) : json :=
  [ ("ok", JBool true);
    ("code", JString code);
    ("view_url", JString (url_for env "view_coupon" [("code", code)]));
    ("qr_url", JString (url_for env "coupon_qr" [("code", code)]));
    ("expires", JString (Datetime.isoformat (CouponCode.expires coupon))) ].

(** POST /claim/<int:offer_id> *)
Definition claim_offer (env : Env) (db : Db.t) (offer_id : Z) : Db.t * Response :=
  match Db.get_offer db offer_id with
  | None =>
      (* [get_or_404]: a key that the store cannot hold is refused when the
         query binds it (no row has such a key); any other absent key is a 404 *)
      match Db.bind_key offer_id with
      | inl e => (db, Unhandled e)
      | inr _ => (db, Abort 404)
      end
  | Some offer =>
      let prefix := Py.upper (Py.slice_to (Offer.restaurant offer) 4) in
      match claim_loop (Py.range 10) (urandom env) 0 db prefix with
      | inl e => (db, Unhandled e)
      | inr code =>
          match Db.add_coupon (utcnow env) db (new_coupon offer code) with
          | inl e => (db, Unhandled e)
          | inr (db', coupon) =>
              match CouponCode.code coupon with
              | None => (db', Unhandled Py.BuildError)
              | Some k => (db', Json 200 (claim_json env k coupon))
              end
          end
      end
  end.

Definition error_json (msg : string) : json :=
  [ ("ok", JBool false); ("error", JString msg) ].

(** POST /redeem *)
Definition redeem (env : Env) (db : Db.t) (form : MultiDict) : Db.t * Response :=
  let code := Py.upper (Py.strip (Py.or_empty (get form "code"))) in
  let who := Py.strip (Py.or_empty (get form "redeemed_by")) in
  if negb (Py.truthy code) then (db, Json 400 (error_json "missing code"))
  else
    match Db.first_by_code db code with
    | None => (db, Json 404 (error_json "code not found"))
    | Some c =>
        if CouponCode.is_expired (today env) c
        then (db, Json 410 (error_json "expired"))
        else if CouponCode.is_redeemed c
        then (db, Json 409 (error_json "already redeemed"))
        else
          let c1 := CouponCode.set_redeemed_at c (Some (utcnow env)) in
          let c2 := if Py.truthy who
                    then CouponCode.set_redeemed_by c1 (Some who) else c1 in
          (Db.update_coupon db c2,
           Json 200 [ ("ok", JBool true); ("code", json_of_str (CouponCode.code c2)) ])
    end.

(** POST /create_offer; a missing form key is a 400 of the framework. *)
Definition create_offer_post (env : Env) (db : Db.t) (form : MultiDict)
  : Db.t * Response :=
  match get form "restaurant", get form "description", get form "expires" with
  | Some r, Some d, Some e =>
      let restaurant := Py.strip r in
      let description := Py.strip d in
      let expires_str := Py.strip e in
      if negb (Py.truthy restaurant && Py.truthy description && Py.truthy expires_str)
      then (db, Text 400 "All fields required")
      else
        match strptime env expires_str "%Y-%m-%d" with
        | None => (db, Text 400 "Date must be YYYY-MM-DD")
        | Some expires =>
            match Db.add_offer (utcnow env) db
                    (Offer.mk None restaurant description expires None) with
            | inl e => (db, Unhandled e)
            | inr (db', _) => (db', Redirect (url_for env "home" []))
            end
        end
  | _, _, _ => (db, Abort 400)
  end.

(** GET /coupon/<code> *)
Definition view_coupon (db : Db.t) (code : string) : Db.t * Response :=
  match Db.first_by_code db code with
  | None => (db, Abort 404)
  | Some _ => (db, Rendered "view_coupon.html")
  end.

(** GET /coupon/<code>/qr.png *)
Definition coupon_qr (db : Db.t) (code : string) : Db.t * Response :=
  match Db.first_by_code db code with
  | None => (db, Abort 404)
  | Some c =>
      match CouponCode.code c with
      | Some k => (db, Png k)
      | None => (db, Unhandled Py.ValueError)
      end
  end.

(** ** The listing routes *)

Definition lower_char (c : ascii) : ascii :=
  let n := N_of_ascii c in
  if ((65 <=? n) && (n <=? 90))%N then ascii_of_N (n + 32) else c.

(** SQL [lower] on ASCII text. *)
Fixpoint lower (s : string) : string :=
  match s with
  | EmptyString => EmptyString
  | String c s' => String (lower_char c) (lower s')
  end.

(** SQL [s LIKE p] without an escape character: [%] in the pattern stands
    for any run of characters and [_] for any one character.  A character
    is one byte here, as in ASCII text; SQLite takes a multi-byte character
    as one. *)
Fixpoint like (p s : string) : bool :=
  match p with
  | EmptyString =>
      match s with
      | EmptyString => true
      | String _ _ => false
      end
  | String c p' =>
      if Ascii.eqb c "%" then
        (fix skip (t : string) : bool :=
           like p' t ||
           match t with
           | EmptyString => false
           | String _ t' => skip t'
           end) s
      else
        match s with
        | EmptyString => false
        | String d s' => (Ascii.eqb c "_" || Ascii.eqb c d) && like p' s'
        end
  end.

(** [column.ilike(pattern)]: [lower(column) LIKE lower(pattern)]. *)
Definition ilike (column pattern : string) : bool :=
  like (lower pattern) (lower column).

(** The fields of a timestamp in the order in which timestamps compare. *)
Definition datetime_key (t : Datetime.datetime) : list Z :=
  [ Datetime.year (Datetime.dt_date t); Datetime.month (Datetime.dt_date t);
    Datetime.day (Datetime.dt_date t); Datetime.hour t; Datetime.minute t;
    Datetime.second t; Datetime.microsecond t ].

Fixpoint lex_leb (a b : list Z) : bool :=
  match a, b with
  | [], _ => true
  | _ :: _, [] => false
  | x :: a', y :: b' => (x <? y) || ((x =? y) && lex_leb a' b')
  end.

(** [a] is not later than [b]; an unset timestamp sorts before every set
    one, as NULL does. *)
Definition created_leb (a b : option Datetime.datetime) : bool :=
  match a, b with
  | None, _ => true
  | Some _, None => false
  | Some x, Some y => lex_leb (datetime_key x) (datetime_key y)
  end.

Fixpoint insert_desc {A : Type} (key : A -> option Datetime.datetime)
         (x : A) (l : list A) : list A :=
  match l with
  | [] => [x]
  | y :: l' =>
      if created_leb (key y) (key x) then x :: l else y :: insert_desc key x l'
  end.

(** [query.order_by(created_at.desc())]: newest first; rows with the same
    timestamp are kept in table order here (SQL leaves their order open). *)
Definition order_by_created_desc {A : Type} (key : A -> option Datetime.datetime)
           (rows : list A) : list A :=
  fold_right (insert_desc key) [] rows.

(** [Offer.query.filter(Offer.restaurant.ilike(f"%{q}%"))
      .order_by(Offer.created_at.desc()).all()]: the rows of the answer.
    Whether the store answers at all is [like_refused], below. *)
Definition offers_like (db : Db.t) (q : string) : list Offer.t :=
  order_by_created_desc Offer.created_at
    (filter (fun o => ilike (Offer.restaurant o) ("%" ++ q ++ "%")) (Db.offers db)).

(** [request.args.get(key, "")] *)
Definition get_default (d : MultiDict) (key : string) : string :=
  match get d key with
  | Some v => v
  | None => ""
  end.

(** GET /: the values handed to [home.html], in the order
    [offers], [recent], [search_term]; [home_route] says when the page is
    rendered. *)
Definition home (db : Db.t) (args : MultiDict)
  : list Offer.t * list CouponCode.t * string :=
  let q := Py.strip (get_default args "restaurants") in
  let offers :=
    if Py.truthy q then offers_like db q
    else order_by_created_desc Offer.created_at (Db.offers db) in
  let recent :=
    firstn 25 (order_by_created_desc CouponCode.created_at (Db.coupons db)) in
  (offers, recent, q).

(** GET /search: the values handed to [search.html], [offers] and
    [search_term]; [search_route] says when the page is rendered. *)
Definition search (db : Db.t) (args : MultiDict) : list Offer.t * string :=
  let name := Py.strip (Py.or_empty (get args "restaurant")) in
  let offers := if Py.truthy name then offers_like db name else [] in
  (offers, name).

(** SQLite refuses a LIKE pattern of more than 50000 bytes ("LIKE or GLOB
    pattern too complex") when it evaluates it on a row. *)
Definition like_refused (db : Db.t) (q : string) : bool :=
  (50000 <? Z.of_nat (String.length ("%" ++ q ++ "%"))) &&
  match Db.offers db with
  | [] => false
  | _ :: _ => true
  end.

(** The response of GET /: the query of the offers fails (500) when the
    pattern is refused. *)
Definition home_route (db : Db.t) (args : MultiDict) : Response :=
  let q := Py.strip (get_default args "restaurants") in
  if Py.truthy q && like_refused db q then Unhandled Py.OperationalError
  else Rendered "home.html".

(** The response of GET /search. *)
Definition search_route (db : Db.t) (args : MultiDict) : Response :=
  let name := Py.strip (Py.or_empty (get args "restaurant")) in
  if Py.truthy name && like_refused db name then Unhandled Py.OperationalError
  else Rendered "search.html".

Fixpoint has_slash (s : string) : bool :=
  match s with
  | EmptyString => false
  | String c s' => Ascii.eqb c "/" || has_slash s'
  end.

(** The URL converter [<code>]: a text that is not empty and holds no
    slash; any other path matches no route of the two below. *)
Definition routable (code : string) : bool :=
  Py.truthy code && negb (has_slash code).

(** GET /coupon/<code> as the router dispatches it. *)
Definition route_view_coupon (db : Db.t) (code : string) : Db.t * Response :=
  if routable code then view_coupon db code else (db, Abort 404).

(** GET /coupon/<code>/qr.png as the router dispatches it. *)
Definition route_coupon_qr (db : Db.t) (code : string) : Db.t * Response :=
  if routable code then coupon_qr db code else (db, Abort 404).

(** Every route of the application, each with what the router extracts
    from the request. *)
Inductive Request : Type :=
| GET_home (args : MultiDict)
| GET_search (args : MultiDict)
| GET_create_offer (args : MultiDict)
| POST_create_offer (form : MultiDict)
| POST_claim (offer_id : Z)
| GET_coupon (code : string)
| GET_coupon_qr (code : string)
| POST_redeem (form : MultiDict).

Definition handle (env : Env) (db : Db.t) (req : Request) : Db.t * Response :=
  match req with
  | GET_home args => (db, home_route db args)
  | GET_search args => (db, search_route db args)
  | GET_create_offer _ => (db, Rendered "create_offer.html")
  | POST_create_offer form => create_offer_post env db form
  | POST_claim offer_id => claim_offer env db offer_id
  | GET_coupon code => route_view_coupon db code
  | GET_coupon_qr code => route_coupon_qr db code
  | POST_redeem form => redeem env db form
  end.

(** The tables after a sequence of requests, each with its own environment. *)
Fixpoint run (db : Db.t) (reqs : list (Env * Request)) : Db.t :=
  match reqs with
  | [] => db
  | (env, req) :: rest => run (fst (handle env db req)) rest
  end.

(** The seed of the module body: one offer when the table is empty. *)
Definition seed (now : Datetime.datetime) (db : Db.t) : Db.t :=
  match Db.offers db with
  | [] =>
      match Db.add_offer now db
              (Offer.mk None "Chipotle" "Free chips" (Datetime.mkDate 2025 11 5) None) with
      | inr (db', _) => db'
      | inl _ => db
      end
  | _ :: _ => db
  end.

(** ** Vocabulary of the properties *)

(** [a] is a day strictly before [b]. *)
Definition date_before (a b : Datetime.date) : Prop :=
  Datetime.year a < Datetime.year b \/
  (Datetime.year a = Datetime.year b /\
   (Datetime.month a < Datetime.month b \/
    (Datetime.month a = Datetime.month b /\ Datetime.day a < Datetime.day b))).

(** The text of the form field [code] as submitted ([""] when absent). *)
Definition submitted_code (form : MultiDict) : string :=
  Py.or_empty (get form "code").

(** What the tables guarantee: primary keys and codes are set and unique. *)
Record wf (db : Db.t) : Prop := mk_wf {
  wf_offer_ids : NoDup (map Offer.id (Db.offers db));
  wf_offer_keys : Forall (fun i => i <> None) (map Offer.id (Db.offers db));
  wf_coupon_ids : NoDup (map CouponCode.id (Db.coupons db));
  wf_coupon_keys : Forall (fun i => i <> None) (map CouponCode.id (Db.coupons db));
  wf_codes : NoDup (map CouponCode.code (Db.coupons db));
  wf_codes_set : Forall (fun k => k <> None) (map CouponCode.code (Db.coupons db))
}.

(** The code that [redeem] looks up: trimmed, then uppercased. *)
Definition lookup_code (form : MultiDict) : string :=
  Py.upper (Py.strip (submitted_code form)).

(** The HTTP status that [redeem] answers with. *)
Definition redeem_status (env : Env) (db : Db.t) (form : MultiDict) : Z :=
  status_code (snd (redeem env db form)).

(** The name stored with a redemption. *)
Definition redeemer (form : MultiDict) : string :=
  Py.strip (Py.or_empty (get form "redeemed_by")).

(** The coupon [c] as [redeem] writes it back. *)
Definition redeemed_row (env : Env) (form : MultiDict) (c : CouponCode.t)
  : CouponCode.t :=
  let c1 := CouponCode.set_redeemed_at c (Some (utcnow env)) in
  if Py.truthy (redeemer form) then CouponCode.set_redeemed_by c1 (Some (redeemer form))
  else c1.

(** A digit or one of A..F. *)
Definition is_upper_hex (c : ascii) : bool :=
  let n := N_of_ascii c in
  ((48 <=? n) && (n <=? 57) || (65 <=? n) && (n <=? 70))%N.

Fixpoint string_forallb (p : ascii -> bool) (s : string) : bool :=
  match s with
  | EmptyString => true
  | String c s' => p c && string_forallb p s'
  end.

(** The prefix [claim_offer] derives from an offer. *)
Definition coupon_prefix (offer : Offer.t) : string :=
  Py.upper (Py.slice_to (Offer.restaurant offer) 4).

(** The candidate that the [i]-th call of [generate_code] in the loop of
    [claim_offer] returns: each call reads five bytes. *)
Definition candidate (rnd : Secrets.entropy) (prefix : string) (i : nat) : string :=
  match generate_code rnd (5 * i) prefix 10 with
  | inr (s, _) => s
  | inl _ => ""
  end.

Definition candidates (rnd : Secrets.entropy) (prefix : string) : list string :=
  map (candidate rnd prefix) (Py.range 10).

(** The candidate made of the five bytes at position [p]. *)
Definition candidate_at (rnd : Secrets.entropy) (prefix : string) (p : nat) : string :=
  prefix ++ "-" ++ Py.upper (Secrets.hex (map rnd (seq p 5))).

(** Some stored coupon carries the code [s]. *)
Definition stored (db : Db.t) (s : string) : bool :=
  existsb (fun r => Db.opt_string_eqb (CouponCode.code r) s) (Db.coupons db).

(** The entropy of [env] yields, within the ten attempts, a code for the
    offer [offer_id] that is not stored yet. *)
Definition has_fresh (env : Env) (db : Db.t) (offer_id : Z) : Prop :=
  exists offer s,
    Db.get_offer db offer_id = Some offer /\
    In s (candidates (urandom env) (coupon_prefix offer)) /\
    stored db s = false.

(** The first of the ten candidates that is not stored, if any. *)
Definition first_fresh (env : Env) (db : Db.t) (offer : Offer.t) : option string :=
  find (fun s => negb (stored db s)) (candidates (urandom env) (coupon_prefix offer)).

(** The row that a claim of [offer] stores under the code [k]. *)
Definition issued_row (env : Env) (db : Db.t) (offer : Offer.t) (k : string)
  : CouponCode.t :=
  CouponCode.mk (Some (Db.next_id (map CouponCode.id (Db.coupons db))))
                (Offer.id offer) (Offer.restaurant offer) (Offer.description offer)
                (Some k) (Offer.expires offer) (Some (utcnow env)) None None.

(** Claims of one offer, one after the other. *)
Definition claims (offer_id : Z) (envs : list Env) : list (Env * Request) :=
  map (fun env => (env, POST_claim offer_id)) envs.

Fixpoint all_fresh (db : Db.t) (offer_id : Z) (envs : list Env) : Prop :=
  match envs with
  | [] => True
  | env :: rest =>
      has_fresh env db offer_id /\
      all_fresh (fst (claim_offer env db offer_id)) offer_id rest
  end.

(** ** Sample data *)

Module Sample.

Definition nov (d : Z) : Datetime.date := Datetime.mkDate 2025 11 d.

Definition at_noon (d : Datetime.date) : Datetime.datetime :=
  Datetime.mkDatetime d 12 0 0 0.

Definition zeros : Secrets.entropy := fun _ => x00%byte.

(** Bytes that change with the position. *)
Definition ramp : Secrets.entropy :=
  fun n => match Byte.of_N (N.of_nat (n * 37 + 11) mod 256) with
           | Some b => b
           | None => x00%byte
           end.

Definition local_url (endpoint : string) (values : list (string * string)) : string :=
  match values with
  | (_, v) :: _ => "http://localhost:5001/" ++ endpoint ++ "/" ++ v
  | [] => "http://localhost:5001/" ++ endpoint
  end.

Definition no_parse (s fmt : string) : option Datetime.date := None.

Definition env_on (d : Z) (rnd : Secrets.entropy) : Env :=
  mkEnv (nov d) (at_noon (nov d)) rnd local_url no_parse.

Definition chipotle : Offer.t :=
  Offer.mk (Some 1) "Chipotle" "Free chips" (nov 5) (Some (at_noon (nov 1))).

Definition coupon (id : Z) (code : string) (redeemed : option Datetime.datetime)
  : CouponCode.t :=
  CouponCode.mk (Some id) (Some 1) "Chipotle" "Free chips" (Some code) (nov 5)
                (Some (at_noon (nov 1))) redeemed None.

(** One offer, no coupon. *)
Definition db0 : Db.t := Db.mk [chipotle] [].

(** One active coupon. *)
Definition db1 : Db.t := Db.mk [chipotle] [coupon 1 "CHIP-0000000000" None].

(** One coupon redeemed on the 2nd. *)
Definition db2 : Db.t :=
  Db.mk [chipotle] [coupon 1 "CHIP-0000000000" (Some (at_noon (nov 2)))].

Definition code_form (code : string) : MultiDict := [("code", code)].

(** Three claims; the third meets a stored code first and retries. *)
Definition three_envs : list Env :=
  [env_on 3 ramp; env_on 3 zeros; env_on 4 ramp].

End Sample.

(** ** Vocabulary of the further properties *)

(** The string does not begin with whitespace. *)
Definition no_leading_space (s : string) : Prop :=
  match s with
  | String c _ => Py.isspace c = false
  | EmptyString => True
  end.

(** The columns of a coupon that no handler assigns after the insert. *)
Definition snapshot (c : CouponCode.t)
  : option Z * option Z * string * string * option string * Datetime.date
    * option Datetime.datetime :=
  (CouponCode.id c, CouponCode.offer_id c, CouponCode.restaurant c,
   CouponCode.description c, CouponCode.code c, CouponCode.expires c,
   CouponCode.created_at c).

(** The value of an uppercase hexadecimal digit. *)
Definition hex_value (c : ascii) : N :=
  let n := N_of_ascii c in
  if (n <? 58)%N then (n - 48)%N else (n - 55)%N.

(** The row that [create_offer] stores for the submitted fields [r], [d]
    and the parsed date [x]. *)
Definition created_offer (env : Env) (db : Db.t) (r d : string) (x : Datetime.date)
  : Offer.t :=
  Offer.mk (Some (Db.next_id (map Offer.id (Db.offers db))))
           (Py.strip r) (Py.strip d) x (Some (utcnow env)).

(** No stored offer has a restaurant name that begins with whitespace. *)
Definition offers_clean (db : Db.t) : Prop :=
  forall o : Offer.t, In o (Db.offers db) -> no_leading_space (Offer.restaurant o).

(** The text holds ASCII characters only, and no NUL. *)
Definition is_ascii (s : string) : bool :=
  string_forallb (fun c => (1 <=? N_of_ascii c)%N && (N_of_ascii c <? 128)%N) s.

(** The keys 1, 2, ..., n in this order. *)
Definition keys_upto (n : nat) : list (option Z) :=
  map (fun i => Some (Z.of_nat i)) (seq 1 n).

(** The form of a redeem request with a code and a name. *)
Definition redeem_form (code who : string) : MultiDict :=
  [("code", code); ("redeemed_by", who)].

(** The rows are in the order newest first. *)
Definition newest_first {A : Type} (key : A -> option Datetime.datetime)
           (rows : list A) : Prop :=
  StronglySorted (fun a b => created_leb (key b) (key a) = true) rows.

(** The term holds neither of the two LIKE wildcards. *)
Definition wild_free (q : string) : bool :=
  string_forallb (fun c => negb (Ascii.eqb c "%") && negb (Ascii.eqb c "_")) q.

(** Two offers, the second one newer, and one coupon. *)
Definition two_offers : Db.t :=
  Db.mk [Sample.chipotle;
         Offer.mk (Some 2) "Subway" "Free cookie" (Sample.nov 20)
                  (Some (Sample.at_noon (Sample.nov 3)))]
        [Sample.coupon 1 "CHIP-0000000000" None].

(** * Properties *)

(** ** Strings *)

Lemma truthy_false_iff (s : string) : Py.truthy s = false <-> s = "".
Proof.
  unfold Py.truthy. destruct (String.eqb_spec s ""); simpl; split; congruence.
Qed.

Lemma truthy_true_iff (s : string) : Py.truthy s = true <-> s <> "".
Proof.
  unfold Py.truthy. destruct (String.eqb_spec s ""); simpl; split; congruence.
Qed.

Lemma upper_empty_iff (s : string) : Py.upper s = "" <-> s = "".
Proof.
  destruct s; simpl; split; congruence.
Qed.

Lemma upper_length (s : string) : String.length (Py.upper s) = String.length s.
Proof.
  induction s as [|c s IH]; simpl; congruence.
Qed.

Lemma take_all (s : string) (n : nat) :
  (String.length s <= n)%nat -> Py.take n s = s.
Proof.
  revert n. induction s as [|c s IH]; intros [|n] H; simpl in *;
    try reflexivity; try lia.
  rewrite IH by lia. reflexivity.
Qed.

(** [lstrip] removes a run of whitespace at the front and nothing else. *)
Lemma lstrip_decompose (s : string) :
  exists l : string,
    s = l ++ Py.lstrip s /\ string_forallb Py.isspace l = true /\
    match Py.lstrip s with
    | String c _ => Py.isspace c = false
    | EmptyString => True
    end.
Proof.
  induction s as [|c s (l & Hs & Hl & Hhd)]; [exists ""; simpl; auto|].
  cbn [Py.lstrip]. destruct (Py.isspace c) eqn:E.
  - exists (String c l). simpl. rewrite E, Hl, <- Hs. auto.
  - exists "". simpl. auto.
Qed.

(** [rstrip] removes a run of whitespace at the end and nothing else. *)
Lemma rstrip_decompose (s : string) :
  exists r : string,
    s = Py.rstrip s ++ r /\ string_forallb Py.isspace r = true.
Proof.
  induction s as [|c s (r & Hs & Hr)]; [exists ""; simpl; auto|].
  cbn [Py.rstrip]. destruct (Py.rstrip s) as [|c' s'] eqn:E.
  - simpl in Hs. subst r. destruct (Py.isspace c) eqn:Ec.
    + exists (String c s). simpl. rewrite Ec, Hr. auto.
    + exists s. simpl. auto.
  - exists r. simpl. rewrite Hs at 1. auto.
Qed.

(** [strip] cuts whitespace, and only whitespace, from both ends. *)
Lemma strip_decompose (s : string) :
  exists l r : string,
    s = l ++ Py.strip s ++ r /\
    string_forallb Py.isspace l = true /\ string_forallb Py.isspace r = true /\
    match Py.strip s with
    | String c _ => Py.isspace c = false
    | EmptyString => True
    end.
Proof.
  destruct (rstrip_decompose s) as (r & Hs & Hr).
  destruct (lstrip_decompose (Py.rstrip s)) as (l & Hs' & Hl & Hhd).
  exists l, r. unfold Py.strip. split; [|auto].
  rewrite Hs at 1. rewrite Hs' at 1.
  clear. induction l as [|c l IH]; simpl; [reflexivity | rewrite IH; reflexivity].
Qed.

Lemma upper_char_idem (c : ascii) : Py.upper_char (Py.upper_char c) = Py.upper_char c.
Proof.
  destruct c as [[] [] [] [] [] [] [] []]; reflexivity.
Qed.

Lemma upper_idem (s : string) : Py.upper (Py.upper s) = Py.upper s.
Proof.
  induction s as [|c s IH]; simpl; [reflexivity|].
  rewrite upper_char_idem, IH. reflexivity.
Qed.

Lemma hex_length (bs : list byte) :
  String.length (Secrets.hex bs) = (2 * List.length bs)%nat.
Proof.
  induction bs as [|b bs IH]; simpl; [reflexivity | rewrite IH; lia].
Qed.

Lemma upper_hex_of_byte (b : byte) :
  is_upper_hex (Py.upper_char (Secrets.hexdigit (Byte.to_N b / 16))) = true /\
  is_upper_hex (Py.upper_char (Secrets.hexdigit (Byte.to_N b mod 16))) = true.
Proof.
  destruct b; split; vm_compute; reflexivity.
Qed.

Lemma upper_hex_alphabet (bs : list byte) :
  string_forallb is_upper_hex (Py.upper (Secrets.hex bs)) = true.
Proof.
  induction bs as [|b bs IH]; simpl; [reflexivity|].
  destruct (upper_hex_of_byte b) as [Hhi Hlo].
  rewrite Hhi, Hlo, IH. reflexivity.
Qed.

(** What [generate_code] returns for a length that is not negative: the
    token has [2 * (length // 2)] characters. *)
Lemma generate_code_token (rnd : Secrets.entropy) (pos : nat)
      (prefix : string) (length : Z) :
  0 <= length ->
  let n := Z.to_nat (length / 2) in
  let token := Py.upper (Secrets.hex (map rnd (seq pos n))) in
  generate_code rnd pos prefix length = inr (prefix ++ "-" ++ token, (pos + n)%nat) /\
  String.length token = (2 * n)%nat /\
  string_forallb is_upper_hex token = true.
Proof.
  intros Hlen n token.
  assert (Hdiv : 0 <= length / 2) by (apply Z.div_pos; lia).
  assert (Htok : String.length token = (2 * n)%nat).
  { unfold token. rewrite upper_length, hex_length, length_map, length_seq.
    reflexivity. }
  split; [|split; [exact Htok | apply upper_hex_alphabet]].
  unfold generate_code, Secrets.token_hex, Secrets.token_bytes.
  destruct (Z.ltb_spec (length / 2) 0) as [Hneg|_]; [lia|].
  simpl. unfold Py.slice_to.
  destruct (Z.leb_spec 0 length) as [_|Hneg]; [|lia].
  fold n. fold token. rewrite take_all; [reflexivity|].
  rewrite Htok. unfold n.
  assert (2 * (length / 2) <= length) by (apply Z.mul_div_le; lia).
  lia.
Qed.

Lemma generate_code_10 (rnd : Secrets.entropy) (pos : nat) (prefix : string) :
  generate_code rnd pos prefix 10 =
  inr (prefix ++ "-" ++ Py.upper (Secrets.hex (map rnd (seq pos 5))), (pos + 5)%nat).
Proof.
  exact (proj1 (generate_code_token rnd pos prefix 10 ltac:(lia))).
Qed.

(** ** Dates *)

Lemma gt_spec (a b : Datetime.date) :
  Datetime.gt a b = true <-> date_before b a.
Proof.
  unfold Datetime.gt, Datetime.cmp, date_before.
  destruct a as [ya ma da], b as [yb mb db]; simpl.
  destruct (Z.compare_spec ya yb) as [Hy|Hy|Hy];
    [destruct (Z.compare_spec ma mb) as [Hm|Hm|Hm];
       [destruct (Z.compare_spec da db) as [Hd|Hd|Hd]| |] | |];
    split; intros H; try discriminate; try reflexivity; try lia.
Qed.

Lemma gt_irrefl (a : Datetime.date) : Datetime.gt a a = false.
Proof.
  destruct (Datetime.gt a a) eqn:E; [|reflexivity].
  apply gt_spec in E. unfold date_before in E. lia.
Qed.

(** [date_before] is a strict total order on dates. *)
Lemma date_before_irrefl (a : Datetime.date) : ~ date_before a a.
Proof.
  unfold date_before. lia.
Qed.

Lemma date_before_trans (a b c : Datetime.date) :
  date_before a b -> date_before b c -> date_before a c.
Proof.
  unfold date_before. lia.
Qed.

Lemma date_before_total (a b : Datetime.date) :
  date_before a b \/ a = b \/ date_before b a.
Proof.
  unfold date_before. destruct a as [ya ma da], b as [yb mb db]. simpl.
  destruct (Z.lt_trichotomy ya yb) as [?|[->|?]]; [lia| |lia].
  destruct (Z.lt_trichotomy ma mb) as [?|[->|?]]; [lia| |lia].
  destruct (Z.lt_trichotomy da db) as [?|[->|?]]; [lia| |lia].
  right. left. reflexivity.
Qed.

(** ** The tables *)

Lemma opt_string_eqb_iff (a : option string) (b : string) :
  Db.opt_string_eqb a b = true <-> a = Some b.
Proof.
  destruct a as [x|]; simpl; [|split; discriminate].
  destruct (String.eqb_spec x b); split; congruence.
Qed.

Lemma same_id_iff (a b : option Z) :
  Db.same_id a b = true <-> a = b /\ a <> None.
Proof.
  destruct a as [x|], b as [y|]; simpl;
    try destruct (Z.eqb_spec x y);
    (split; [intros H | intros [H1 H2]]); try discriminate;
    try split; congruence.
Qed.

Lemma NoDup_snoc {A : Type} (l : list A) (x : A) :
  NoDup l -> ~ In x l -> NoDup (l ++ [x]).
Proof.
  induction l as [|a l IH]; simpl; intros Hnd Hx.
  - constructor; [intros []|constructor].
  - inversion Hnd as [|? ? Ha Hl]; subst. constructor.
    + rewrite in_app_iff. simpl. intuition congruence.
    + apply IH; intuition.
Qed.

Lemma NoDup_map_eq {A B : Type} (f : A -> B) (l : list A) (a b : A) :
  NoDup (map f l) -> In a l -> In b l -> f a = f b -> a = b.
Proof.
  induction l as [|x l IH]; simpl; intros Hnd Ha Hb E; [contradiction|].
  inversion Hnd as [|? ? Hx Hl]; subst.
  destruct Ha as [->|Ha], Hb as [->|Hb]; auto.
  - exfalso. apply Hx. rewrite E. apply in_map. exact Hb.
  - exfalso. apply Hx. rewrite <- E. apply in_map. exact Ha.
Qed.

Lemma first_by_code_stored (db : Db.t) (s : string) :
  Db.first_by_code db s = None <-> stored db s = false.
Proof.
  unfold Db.first_by_code, stored.
  induction (Db.coupons db) as [|r l IH]; simpl; [tauto|].
  destruct (Db.opt_string_eqb (CouponCode.code r) s); simpl; [split; discriminate|exact IH].
Qed.

Lemma first_by_code_In (db : Db.t) (s : string) (c : CouponCode.t) :
  Db.first_by_code db s = Some c ->
  In c (Db.coupons db) /\ CouponCode.code c = Some s.
Proof.
  unfold Db.first_by_code. intros H. apply find_some in H.
  destruct H as [Hin Hc]. apply opt_string_eqb_iff in Hc. auto.
Qed.

(** With unique codes, the lookup finds the coupon that carries the code. *)
Lemma first_by_code_unique (db : Db.t) (s : string) (c : CouponCode.t) :
  NoDup (map CouponCode.code (Db.coupons db)) ->
  In c (Db.coupons db) -> CouponCode.code c = Some s ->
  Db.first_by_code db s = Some c.
Proof.
  intros Hnd Hin Hc.
  destruct (Db.first_by_code db s) as [c'|] eqn:E.
  - apply first_by_code_In in E. destruct E as [Hin' Hc'].
    f_equal. apply (NoDup_map_eq CouponCode.code (Db.coupons db)); congruence.
  - exfalso. unfold Db.first_by_code in E.
    apply (find_none _ _ E) in Hin.
    apply (proj2 (opt_string_eqb_iff _ _)) in Hc. congruence.
Qed.

Lemma get_offer_absent (db : Db.t) (offer_id : Z) :
  (forall o, In o (Db.offers db) -> Offer.id o <> Some offer_id) ->
  Db.get_offer db offer_id = None.
Proof.
  unfold Db.get_offer. intros H.
  induction (Db.offers db) as [|o l IH]; simpl; [reflexivity|].
  destruct (Offer.id o) as [x|] eqn:E; simpl.
  - destruct (Z.eqb_spec x offer_id) as [->|_].
    + exfalso. apply (H o); simpl; auto.
    + apply IH. intros o' Ho'. apply H. simpl. auto.
  - apply IH. intros o' Ho'. apply H. simpl. auto.
Qed.

Lemma next_id_above (ids : list (option Z)) (x : Z) :
  In (Some x) ids -> x < Db.next_id ids.
Proof.
  unfold Db.next_id. induction ids as [|i ids IH]; cbn [fold_right In];
    [contradiction|].
  set (m := fold_right _ 0 ids) in *.
  intros [->|Hin].
  - lia.
  - specialize (IH Hin). destruct i; lia.
Qed.

Lemma next_id_fresh (ids : list (option Z)) : ~ In (Some (Db.next_id ids)) ids.
Proof.
  intros H. apply next_id_above in H. lia.
Qed.

(** What a successful insert of a coupon stores. *)
Lemma add_coupon_inr (now : Datetime.datetime) (db db' : Db.t) (c row : CouponCode.t) :
  Db.add_coupon now db c = inr (db', row) ->
  exists k,
    CouponCode.code c = Some k /\ stored db k = false /\
    row = CouponCode.mk (Some (Db.next_id (map CouponCode.id (Db.coupons db))))
            (CouponCode.offer_id c) (CouponCode.restaurant c)
            (CouponCode.description c) (Some k) (CouponCode.expires c)
            (Db.default_now now (CouponCode.created_at c))
            (CouponCode.redeemed_at c) (CouponCode.redeemed_by c) /\
    db' = Db.mk (Db.offers db) (Db.coupons db ++ [row])%list.
Proof.
  unfold Db.add_coupon. intros H.
  destruct (CouponCode.code c) as [k|]; [|discriminate].
  exists k. fold (stored db k) in H.
  destruct (stored db k); [discriminate|].
  inversion H; subst. auto.
Qed.

Lemma stored_false_not_In (db : Db.t) (k : string) :
  stored db k = false <-> ~ In (Some k) (map CouponCode.code (Db.coupons db)).
Proof.
  unfold stored. induction (Db.coupons db) as [|r l IH]; simpl; [tauto|].
  rewrite orb_false_iff, IH.
  destruct (Db.opt_string_eqb (CouponCode.code r) k) eqn:E.
  - apply opt_string_eqb_iff in E. split; [intros [? _]; discriminate|tauto].
  - assert (CouponCode.code r <> Some k).
    { intros Hc. apply (proj2 (opt_string_eqb_iff _ _)) in Hc. congruence. }
    tauto.
Qed.

(** ** The retry loop of [claim_offer] *)

Lemma candidate_eq (rnd : Secrets.entropy) (prefix : string) (i : nat) :
  candidate rnd prefix i = candidate_at rnd prefix (5 * i).
Proof.
  unfold candidate. rewrite generate_code_10. reflexivity.
Qed.

Lemma claim_loop_find (iters : list nat) (rnd : Secrets.entropy) (pos : nat)
      (db : Db.t) (prefix : string) :
  claim_loop iters rnd pos db prefix =
  inr (find (fun s => negb (stored db s))
            (map (fun j => candidate_at rnd prefix (pos + 5 * j))
                 (seq 0 (List.length iters)))).
Proof.
  revert pos. induction iters as [|i iters IH]; intros pos; [reflexivity|].
  cbn [claim_loop List.length]. rewrite generate_code_10.
  fold (candidate_at rnd prefix pos).
  rewrite <- cons_seq, <- seq_shift. cbn [map find]. rewrite map_map.
  replace (pos + 5 * 0)%nat with pos by lia.
  destruct (Db.first_by_code db (candidate_at rnd prefix pos)) as [c|] eqn:E.
  - assert (Hs : stored db (candidate_at rnd prefix pos) = true).
    { destruct (stored db (candidate_at rnd prefix pos)) eqn:Hs; [reflexivity|].
      apply first_by_code_stored in Hs. congruence. }
    rewrite Hs. cbn [negb]. rewrite IH. do 2 f_equal.
    apply map_ext. intros j. f_equal. lia.
  - apply first_by_code_stored in E. rewrite E. reflexivity.
Qed.

Lemma claim_loop_range (env : Env) (db : Db.t) (offer : Offer.t) :
  claim_loop (Py.range 10) (urandom env) 0 db (coupon_prefix offer) =
  inr (first_fresh env db offer).
Proof.
  rewrite claim_loop_find. unfold first_fresh, candidates, Py.range.
  rewrite length_seq. apply f_equal, f_equal, map_ext. intros j.
  rewrite candidate_eq. reflexivity.
Qed.

(** The two ways a claim of a stored offer ends. *)
Lemma claim_offer_found (env : Env) (db : Db.t) (offer_id : Z) (offer : Offer.t) :
  Db.get_offer db offer_id = Some offer ->
  claim_offer env db offer_id =
  match first_fresh env db offer with
  | Some k =>
      (Db.mk (Db.offers db) (Db.coupons db ++ [issued_row env db offer k])%list,
       Json 200 (claim_json env k (issued_row env db offer k)))
  | None => (db, Unhandled Py.IntegrityError)
  end.
Proof.
  intros Hget. unfold claim_offer. rewrite Hget.
  fold (coupon_prefix offer). rewrite claim_loop_range.
  destruct (first_fresh env db offer) as [k|] eqn:E; [|reflexivity].
  unfold first_fresh in E. apply find_some in E. destruct E as [_ Hk].
  apply negb_true_iff in Hk.
  unfold Db.add_coupon, new_coupon. cbn [CouponCode.code].
  fold (stored db k). rewrite Hk. reflexivity.
Qed.

Lemma claim_offer_absent (env : Env) (db : Db.t) (offer_id : Z) :
  Db.get_offer db offer_id = None ->
  fst (claim_offer env db offer_id) = db /\
  (status_code (snd (claim_offer env db offer_id)) = 404 \/
   status_code (snd (claim_offer env db offer_id)) = 500).
Proof.
  intros Hget. unfold claim_offer. rewrite Hget.
  destruct (Db.bind_key offer_id); auto.
Qed.

Lemma route_view_coupon_reads (db : Db.t) (code : string) :
  fst (route_view_coupon db code) = db.
Proof.
  unfold route_view_coupon, view_coupon.
  destruct (routable code); [|reflexivity].
  destruct (Db.first_by_code db code); reflexivity.
Qed.

Lemma route_coupon_qr_reads (db : Db.t) (code : string) :
  fst (route_coupon_qr db code) = db.
Proof.
  unfold route_coupon_qr, coupon_qr.
  destruct (routable code); [|reflexivity].
  destruct (Db.first_by_code db code) as [c|]; [|reflexivity].
  destruct (CouponCode.code c); reflexivity.
Qed.

Lemma first_fresh_stored (env : Env) (db : Db.t) (offer : Offer.t) (k : string) :
  first_fresh env db offer = Some k -> stored db k = false.
Proof.
  unfold first_fresh. intros E. apply find_some in E.
  destruct E as [_ Hk]. apply negb_true_iff in Hk. exact Hk.
Qed.

Lemma first_fresh_None (env : Env) (db : Db.t) (offer : Offer.t) :
  first_fresh env db offer = None <->
  forall s, In s (candidates (urandom env) (coupon_prefix offer)) -> stored db s = true.
Proof.
  unfold first_fresh. split.
  - intros E s Hs. apply (find_none _ _ E) in Hs.
    apply negb_false_iff in Hs. exact Hs.
  - intros H. destruct (find _ _) as [k|] eqn:E; [|reflexivity].
    apply find_some in E. destruct E as [Hin Hk].
    apply H in Hin. rewrite Hin in Hk. discriminate.
Qed.

(** ** [redeem], branch by branch *)

Lemma redeem_missing (env : Env) (db : Db.t) (form : MultiDict) :
  lookup_code form = "" ->
  redeem env db form = (db, Json 400 (error_json "missing code")).
Proof.
  intros H. unfold redeem. fold (submitted_code form). fold (lookup_code form).
  rewrite (proj2 (truthy_false_iff _) H). reflexivity.
Qed.

Lemma redeem_unknown (env : Env) (db : Db.t) (form : MultiDict) :
  lookup_code form <> "" ->
  Db.first_by_code db (lookup_code form) = None ->
  redeem env db form = (db, Json 404 (error_json "code not found")).
Proof.
  intros H Hf. unfold redeem. fold (submitted_code form). fold (lookup_code form).
  rewrite (proj2 (truthy_true_iff _) H), Hf. reflexivity.
Qed.

Lemma redeem_found (env : Env) (db : Db.t) (form : MultiDict) (c : CouponCode.t) :
  lookup_code form <> "" ->
  Db.first_by_code db (lookup_code form) = Some c ->
  redeem env db form =
  if CouponCode.is_expired (today env) c
  then (db, Json 410 (error_json "expired"))
  else if CouponCode.is_redeemed c
  then (db, Json 409 (error_json "already redeemed"))
  else (Db.update_coupon db (redeemed_row env form c),
        Json 200 [ ("ok", JBool true); ("code", json_of_str (CouponCode.code c)) ]).
Proof.
  intros H Hf. unfold redeem. fold (submitted_code form). fold (lookup_code form).
  rewrite (proj2 (truthy_true_iff _) H), Hf.
  destruct (CouponCode.is_expired (today env) c); [reflexivity|].
  destruct (CouponCode.is_redeemed c); [reflexivity|].
  fold (redeemer form). unfold redeemed_row.
  destruct (Py.truthy (redeemer form)); reflexivity.
Qed.

Lemma redeemed_row_keeps (env : Env) (form : MultiDict) (c : CouponCode.t) :
  CouponCode.id (redeemed_row env form c) = CouponCode.id c /\
  CouponCode.code (redeemed_row env form c) = CouponCode.code c /\
  CouponCode.expires (redeemed_row env form c) = CouponCode.expires c /\
  CouponCode.redeemed_at (redeemed_row env form c) = Some (utcnow env).
Proof.
  unfold redeemed_row. destruct (Py.truthy (redeemer form)); simpl; auto.
Qed.

(** An UPDATE of a stored coupon that keeps its key and code keeps the key
    and code columns of the whole table. *)
Lemma update_coupon_columns (db : Db.t) (c c' : CouponCode.t) :
  NoDup (map CouponCode.id (Db.coupons db)) ->
  In c (Db.coupons db) ->
  CouponCode.id c' = CouponCode.id c ->
  CouponCode.code c' = CouponCode.code c ->
  Db.offers (Db.update_coupon db c') = Db.offers db /\
  map CouponCode.id (Db.coupons (Db.update_coupon db c')) =
    map CouponCode.id (Db.coupons db) /\
  map CouponCode.code (Db.coupons (Db.update_coupon db c')) =
    map CouponCode.code (Db.coupons db).
Proof.
  intros Hnd Hin Hid Hcode. unfold Db.update_coupon. cbn [Db.offers Db.coupons].
  split; [reflexivity|].
  rewrite !map_map.
  split; apply map_ext_in; intros r Hr;
    destruct (Db.same_id (CouponCode.id r) (CouponCode.id c')) eqn:E;
    try reflexivity;
    apply same_id_iff in E; destruct E as [E _];
    assert (r = c) by (apply (NoDup_map_eq CouponCode.id (Db.coupons db)); congruence);
    congruence.
Qed.

(** ** The invariant of the tables *)

Lemma wf_empty : wf Db.empty.
Proof.
  split; simpl; constructor.
Qed.

Lemma Forall_snoc {A : Type} (P : A -> Prop) (l : list A) (x : A) :
  Forall P l -> P x -> Forall P (l ++ [x]).
Proof.
  intros Hl Hx. apply Forall_app. split; [exact Hl|]. constructor; [exact Hx|constructor].
Qed.

Lemma wf_add_offer (now : Datetime.datetime) (db db' : Db.t) (o row : Offer.t) :
  wf db -> Db.add_offer now db o = inr (db', row) -> wf db'.
Proof.
  intros [H1 H2 H3 H4 H5 H6] H. unfold Db.add_offer in H.
  inversion H; subst; clear H.
  split; cbn [Db.offers Db.coupons]; try assumption; rewrite map_app; cbn [map Offer.id].
  - apply NoDup_snoc; [exact H1 | apply next_id_fresh].
  - apply Forall_snoc; [exact H2 | discriminate].
Qed.

Lemma wf_issue (env : Env) (db : Db.t) (offer : Offer.t) (k : string) :
  wf db -> stored db k = false ->
  wf (Db.mk (Db.offers db) (Db.coupons db ++ [issued_row env db offer k])%list).
Proof.
  intros [H1 H2 H3 H4 H5 H6] Hk.
  split; cbn [Db.offers Db.coupons]; try assumption; rewrite map_app;
    cbn [map issued_row CouponCode.id CouponCode.code].
  - apply NoDup_snoc; [exact H3 | apply next_id_fresh].
  - apply Forall_snoc; [exact H4 | discriminate].
  - apply NoDup_snoc; [exact H5 | apply stored_false_not_In; exact Hk].
  - apply Forall_snoc; [exact H6 | discriminate].
Qed.

Lemma wf_claim_offer (env : Env) (db : Db.t) (offer_id : Z) :
  wf db -> wf (fst (claim_offer env db offer_id)).
Proof.
  intros Hwf. destruct (Db.get_offer db offer_id) as [offer|] eqn:Hget.
  - rewrite (claim_offer_found env db offer_id offer Hget).
    destruct (first_fresh env db offer) as [k|] eqn:E; [|exact Hwf].
    apply wf_issue; [exact Hwf | exact (first_fresh_stored _ _ _ _ E)].
  - rewrite (proj1 (claim_offer_absent env db offer_id Hget)). exact Hwf.
Qed.

Lemma wf_update_coupon (db : Db.t) (c c' : CouponCode.t) :
  wf db -> In c (Db.coupons db) ->
  CouponCode.id c' = CouponCode.id c ->
  CouponCode.code c' = CouponCode.code c ->
  wf (Db.update_coupon db c').
Proof.
  intros [H1 H2 H3 H4 H5 H6] Hin Hid Hcode.
  destruct (update_coupon_columns db c c' H3 Hin Hid Hcode) as (Eo & Ei & Ec).
  split; rewrite ?Eo, ?Ei, ?Ec; assumption.
Qed.

Lemma wf_redeem (env : Env) (db : Db.t) (form : MultiDict) :
  wf db -> wf (fst (redeem env db form)).
Proof.
  intros Hwf.
  destruct (String.eqb_spec (lookup_code form) "") as [He|He].
  - rewrite redeem_missing by exact He. exact Hwf.
  - destruct (Db.first_by_code db (lookup_code form)) as [c|] eqn:Hf.
    + rewrite (redeem_found env db form c He Hf).
      destruct (CouponCode.is_expired (today env) c); [exact Hwf|].
      destruct (CouponCode.is_redeemed c); [exact Hwf|].
      destruct (redeemed_row_keeps env form c) as (Hid & Hcode & _).
      apply first_by_code_In in Hf.
      apply (wf_update_coupon db c); tauto.
    + rewrite redeem_unknown by assumption. exact Hwf.
Qed.

Lemma wf_create_offer (env : Env) (db : Db.t) (form : MultiDict) :
  wf db -> wf (fst (create_offer_post env db form)).
Proof.
  intros Hwf. unfold create_offer_post.
  destruct (get form "restaurant"); [|exact Hwf].
  destruct (get form "description"); [|exact Hwf].
  destruct (get form "expires"); [|exact Hwf].
  destruct (negb _); [exact Hwf|].
  destruct (strptime env _ _); [|exact Hwf].
  destruct (Db.add_offer _ _ _) as [e|[db' row]] eqn:E; [exact Hwf|].
  exact (wf_add_offer _ _ _ _ _ Hwf E).
Qed.

(** No request breaks the invariant. *)
Lemma wf_handle (env : Env) (db : Db.t) (req : Request) :
  wf db -> wf (fst (handle env db req)).
Proof.
  intros Hwf. destruct req; cbn [handle fst]; try exact Hwf.
  - apply wf_create_offer; exact Hwf.
  - apply wf_claim_offer; exact Hwf.
  - rewrite route_view_coupon_reads. exact Hwf.
  - rewrite route_coupon_qr_reads. exact Hwf.
  - apply wf_redeem; exact Hwf.
Qed.

Lemma wf_run (reqs : list (Env * Request)) (db : Db.t) :
  wf db -> wf (run db reqs).
Proof.
  revert db. induction reqs as [|[env req] reqs IH]; intros db Hwf; [exact Hwf|].
  cbn [run]. apply IH, wf_handle, Hwf.
Qed.

Lemma wf_seed (now : Datetime.datetime) : wf (seed now Db.empty).
Proof.
  unfold seed. cbn [Db.offers Db.empty].
  destruct (Db.add_offer _ _ _) as [e|[db' row]] eqn:E; [apply wf_empty|].
  exact (wf_add_offer _ _ _ _ _ wf_empty E).
Qed.

(** ** Expiry *)

Lemma is_expired_true_iff (d : Datetime.date) (c : CouponCode.t) :
  CouponCode.is_expired d c = true <-> date_before (CouponCode.expires c) d.
Proof.
  unfold CouponCode.is_expired. apply gt_spec.
Qed.

Lemma is_expired_false_iff (d : Datetime.date) (c : CouponCode.t) :
  CouponCode.is_expired d c = false <-> ~ date_before (CouponCode.expires c) d.
Proof.
  rewrite <- is_expired_true_iff.
  destruct (CouponCode.is_expired d c); split; congruence.
Qed.

(** C8: a coupon is expired exactly when today's date is strictly after its
    stored expiration date; on the expiration date itself it is not expired;
    and the answer depends on the coupon only through that stored date. *)
Theorem is_expired_strictly_after (d : Datetime.date) (c : CouponCode.t) :
  (CouponCode.is_expired d c = true <-> date_before (CouponCode.expires c) d) /\
  (CouponCode.expires c = d -> CouponCode.is_expired d c = false) /\
  (forall c' : CouponCode.t,
      CouponCode.expires c' = CouponCode.expires c ->
      CouponCode.is_expired d c' = CouponCode.is_expired d c).
Proof.
  split; [apply is_expired_true_iff|]. unfold CouponCode.is_expired. split.
  - intros ->. apply gt_irrefl.
  - intros c' ->. reflexivity.
Qed.

Lemma is_expired_strictly_after_witness :
  CouponCode.is_expired (Sample.nov 6) (Sample.coupon 1 "CHIP-0000000000" None) = true /\
  CouponCode.is_expired (Sample.nov 5) (Sample.coupon 1 "CHIP-0000000000" None) = false.
Proof.
  split.
  - apply (proj1 (is_expired_strictly_after
                    (Sample.nov 6) (Sample.coupon 1 "CHIP-0000000000" None))).
    unfold date_before. simpl. lia.
  - apply (proj1 (proj2 (is_expired_strictly_after
                    (Sample.nov 5) (Sample.coupon 1 "CHIP-0000000000" None)))).
    reflexivity.
Defined.

Lemma is_redeemed_iff (c : CouponCode.t) :
  CouponCode.is_redeemed c = true <-> CouponCode.redeemed_at c <> None.
Proof.
  unfold CouponCode.is_redeemed.
  destruct (CouponCode.redeemed_at c); split; congruence.
Qed.

(** ** Redemption *)

Lemma lookup_code_empty_iff (form : MultiDict) :
  lookup_code form = "" <-> Py.strip (submitted_code form) = "".
Proof.
  apply upper_empty_iff.
Qed.

(** C1: [redeem] trims and uppercases the submitted code and then checks, in
    this order: blank code (400), unknown code (404), expiration date before
    today (410), already redeemed (409); otherwise it answers 200.  A coupon
    that is expired and redeemed is answered 410. *)
Theorem redeem_checks_in_order (env : Env) (db : Db.t) (form : MultiDict) :
  (Py.strip (submitted_code form) = "" -> redeem_status env db form = 400) /\
  (Py.strip (submitted_code form) <> "" ->
   match Db.first_by_code db (Py.upper (Py.strip (submitted_code form))) with
   | None => redeem_status env db form = 404
   | Some c =>
       (date_before (CouponCode.expires c) (today env) ->
        redeem_status env db form = 410) /\
       (~ date_before (CouponCode.expires c) (today env) ->
        CouponCode.redeemed_at c <> None ->
        redeem_status env db form = 409) /\
       (~ date_before (CouponCode.expires c) (today env) ->
        CouponCode.redeemed_at c = None ->
        redeem_status env db form = 200) /\
       (date_before (CouponCode.expires c) (today env) ->
        CouponCode.redeemed_at c <> None ->
        redeem_status env db form = 410)
   end).
Proof.
  unfold redeem_status. split.
  - intros H. apply lookup_code_empty_iff in H.
    rewrite redeem_missing by exact H. reflexivity.
  - intros H. fold (lookup_code form).
    assert (He : lookup_code form <> "") by (rewrite lookup_code_empty_iff; exact H).
    destruct (Db.first_by_code db (lookup_code form)) as [c|] eqn:Hf.
    + rewrite (redeem_found env db form c He Hf).
      destruct (CouponCode.is_expired (today env) c) eqn:Hx.
      * apply is_expired_true_iff in Hx.
        repeat split; intros; try reflexivity; contradiction.
      * apply is_expired_false_iff in Hx.
        destruct (CouponCode.is_redeemed c) eqn:Hr.
        -- apply is_redeemed_iff in Hr.
           repeat split; intros; try reflexivity; contradiction.
        -- assert (CouponCode.redeemed_at c = None).
           { unfold CouponCode.is_redeemed in Hr.
             destruct (CouponCode.redeemed_at c); congruence. }
           repeat split; intros; try reflexivity; contradiction.
    + rewrite redeem_unknown by assumption. reflexivity.
Qed.

Lemma redeem_checks_in_order_witness :
  redeem_status (Sample.env_on 5 Sample.zeros) Sample.db1 [] = 400 /\
  redeem_status (Sample.env_on 5 Sample.zeros) Sample.db1 (Sample.code_form "   ") = 400 /\
  redeem_status (Sample.env_on 5 Sample.zeros) Sample.db1 (Sample.code_form "nope") = 404 /\
  redeem_status (Sample.env_on 6 Sample.zeros) Sample.db2
                (Sample.code_form " chip-0000000000 ") = 410 /\
  redeem_status (Sample.env_on 5 Sample.zeros) Sample.db2
                (Sample.code_form " chip-0000000000 ") = 409 /\
  redeem_status (Sample.env_on 5 Sample.zeros) Sample.db1
                (Sample.code_form " chip-0000000000 ") = 200.
Proof.
  split; [|split; [|split; [|split; [|split]]]].
  - apply (proj1 (redeem_checks_in_order _ _ _)). reflexivity.
  - apply (proj1 (redeem_checks_in_order _ _ _)). reflexivity.
  - apply (proj2 (redeem_checks_in_order
                    (Sample.env_on 5 Sample.zeros) Sample.db1 (Sample.code_form "nope"))).
    discriminate.
  - refine (proj2 (proj2 (proj2 (proj2 (redeem_checks_in_order
              (Sample.env_on 6 Sample.zeros) Sample.db2
              (Sample.code_form " chip-0000000000 ")) _))) _ _).
    + discriminate.
    + unfold date_before. simpl. lia.
    + discriminate.
  - refine (proj1 (proj2 (proj2 (redeem_checks_in_order
              (Sample.env_on 5 Sample.zeros) Sample.db2
              (Sample.code_form " chip-0000000000 ")) _)) _ _).
    + discriminate.
    + unfold date_before. simpl. lia.
    + discriminate.
  - refine (proj1 (proj2 (proj2 (proj2 (redeem_checks_in_order
              (Sample.env_on 5 Sample.zeros) Sample.db1
              (Sample.code_form " chip-0000000000 ")) _))) _ _).
    + discriminate.
    + unfold date_before. simpl. lia.
    + reflexivity.
Defined.

(** C10: a redeem request that is answered with an error writes nothing:
    the tables after it are the tables before it. *)
Theorem failed_redeem_writes_nothing (env : Env) (db : Db.t) (form : MultiDict) :
  redeem_status env db form <> 200 ->
  fst (redeem env db form) = db.
Proof.
  unfold redeem_status.
  destruct (String.eqb_spec (lookup_code form) "") as [He|He].
  - rewrite redeem_missing by exact He. reflexivity.
  - destruct (Db.first_by_code db (lookup_code form)) as [c|] eqn:Hf.
    + rewrite (redeem_found env db form c He Hf).
      destruct (CouponCode.is_expired (today env) c); [reflexivity|].
      destruct (CouponCode.is_redeemed c); [reflexivity|].
      cbn [snd status_code]. congruence.
    + rewrite redeem_unknown by assumption. reflexivity.
Qed.

Lemma failed_redeem_writes_nothing_witness :
  fst (redeem (Sample.env_on 6 Sample.zeros) Sample.db1
              (Sample.code_form "CHIP-0000000000")) = Sample.db1.
Proof.
  apply (failed_redeem_writes_nothing (Sample.env_on 6 Sample.zeros) Sample.db1
           (Sample.code_form "CHIP-0000000000")).
  vm_compute. discriminate.
Defined.

(** ** Issuing a coupon *)

Lemma get_offer_id (db : Db.t) (offer_id : Z) (offer : Offer.t) :
  Db.get_offer db offer_id = Some offer ->
  In offer (Db.offers db) /\ Offer.id offer = Some offer_id.
Proof.
  unfold Db.get_offer. intros H. apply find_some in H. destruct H as [Hin Hid].
  split; [exact Hin|]. unfold Db.opt_Z_eqb in Hid.
  destruct (Offer.id offer) as [x|]; [|discriminate].
  apply Z.eqb_eq in Hid. congruence.
Qed.






(** C5: a successful claim of a stored offer adds exactly one coupon, which
    carries the offer's restaurant, description and expiration date, and
    answers with the JSON object of the keys ok, code, view_url, qr_url and
    expires, where expires is the coupon's expiration date. *)
Theorem claim_snapshots_offer (env : Env) (db : Db.t) (offer_id : Z) (offer : Offer.t) :
  Db.get_offer db offer_id = Some offer ->
  status_code (snd (claim_offer env db offer_id)) = 200 ->
  exists (c : CouponCode.t) (k : string),
    Db.coupons (fst (claim_offer env db offer_id)) = (Db.coupons db ++ [c])%list /\
    CouponCode.code c = Some k /\
    CouponCode.offer_id c = Some offer_id /\
    CouponCode.restaurant c = Offer.restaurant offer /\
    CouponCode.description c = Offer.description offer /\
    CouponCode.expires c = Offer.expires offer /\
    CouponCode.redeemed_at c = None /\
    snd (claim_offer env db offer_id) =
      Json 200
        [ ("ok", JBool true);
          ("code", JString k);
          ("view_url", JString (url_for env "view_coupon" [("code", k)]));
          ("qr_url", JString (url_for env "coupon_qr" [("code", k)]));
          ("expires", JString (Datetime.isoformat (CouponCode.expires c))) ].
Proof.
  intros Hget Hok. rewrite (claim_offer_found env db offer_id offer Hget) in *.
  destruct (first_fresh env db offer) as [k|]; [|discriminate Hok].
  exists (issued_row env db offer k), k.
  destruct (get_offer_id _ _ _ Hget) as [_ Hid].
  cbn [fst snd Db.coupons issued_row CouponCode.code CouponCode.offer_id
       CouponCode.restaurant CouponCode.description CouponCode.expires
       CouponCode.redeemed_at claim_json].
  repeat (split; [first [reflexivity | exact Hid]|]). reflexivity.
Qed.

Lemma claim_snapshots_offer_witness :
  exists (c : CouponCode.t) (k : string),
    Db.coupons (fst (claim_offer (Sample.env_on 3 Sample.ramp) Sample.db1 1)) =
      (Db.coupons Sample.db1 ++ [c])%list /\
    CouponCode.code c = Some k /\
    CouponCode.offer_id c = Some 1 /\
    CouponCode.restaurant c = "Chipotle" /\
    CouponCode.description c = "Free chips" /\
    CouponCode.expires c = Sample.nov 5 /\
    CouponCode.redeemed_at c = None /\
    snd (claim_offer (Sample.env_on 3 Sample.ramp) Sample.db1 1) =
      Json 200
        [ ("ok", JBool true);
          ("code", JString k);
          ("view_url", JString (Sample.local_url "view_coupon" [("code", k)]));
          ("qr_url", JString (Sample.local_url "coupon_qr" [("code", k)]));
          ("expires", JString (Datetime.isoformat (CouponCode.expires c))) ].
Proof.
  apply (claim_snapshots_offer (Sample.env_on 3 Sample.ramp) Sample.db1 1 Sample.chipotle).
  - reflexivity.
  - reflexivity.
Defined.

Lemma find_map_seq {A : Type} (f : A -> bool) (g : nat -> A) (a n i : nat) :
  (i < n)%nat ->
  (forall j : nat, (j < i)%nat -> f (g (a + j)%nat) = false) ->
  f (g (a + i)%nat) = true ->
  find f (map g (seq a n)) = Some (g (a + i)%nat).
Proof.
  revert a i. induction n as [|n IH]; intros a i Hi Hbefore Hat; [lia|].
  cbn [seq map find]. destruct i as [|i].
  - rewrite Nat.add_0_r in Hat. rewrite Hat, Nat.add_0_r. reflexivity.
  - pose proof (Hbefore 0%nat ltac:(lia)) as H0. rewrite Nat.add_0_r in H0.
    rewrite H0. replace (a + S i)%nat with (S a + i)%nat in * by lia.
    apply IH; [lia | | exact Hat].
    intros j Hj. replace (S a + j)%nat with (a + S j)%nat by lia.
    apply Hbefore. lia.
Qed.

(** The claim takes the first candidate that is not stored. *)
Lemma first_fresh_at (env : Env) (db : Db.t) (offer : Offer.t) (i : nat) :
  (i < 10)%nat ->
  (forall j : nat, (j < i)%nat ->
      stored db (candidate (urandom env) (coupon_prefix offer) j) = true) ->
  stored db (candidate (urandom env) (coupon_prefix offer) i) = false ->
  first_fresh env db offer = Some (candidate (urandom env) (coupon_prefix offer) i).
Proof.
  intros Hi Hbefore Hat. unfold first_fresh, candidates, Py.range.
  apply (find_map_seq (fun s => negb (stored db s))
           (candidate (urandom env) (coupon_prefix offer)) 0 10 i Hi).
  - intros j Hj. cbn [Nat.add]. rewrite (Hbefore j Hj). reflexivity.
  - cbn [Nat.add]. rewrite Hat. reflexivity.
Qed.

(** C4: [claim_offer] generates up to ten candidates and issues the coupon
    under the first one that no stored coupon carries: when the candidates
    before the [i]-th are all stored and the [i]-th is not, the claim
    succeeds with the [i]-th (the code is spelled out for a restaurant name
    in ASCII, where the prefix is as Python computes it).  When all ten are
    stored, the handler goes on
    with [code = None]: the coupon it constructs has no code, the store
    refuses it, and the request ends in that write failure with the tables
    unchanged. *)
Theorem claim_retries_then_null_code
        (env : Env) (db : Db.t) (offer_id : Z) (offer : Offer.t) :
  Db.get_offer db offer_id = Some offer ->
  List.length (candidates (urandom env) (coupon_prefix offer)) = 10%nat /\
  claim_loop (Py.range 10) (urandom env) 0 db (coupon_prefix offer) =
    inr (find (fun s => negb (stored db s))
              (candidates (urandom env) (coupon_prefix offer))) /\
  (forall i : nat,
      is_ascii (Offer.restaurant offer) = true ->
      (i < 10)%nat ->
      (forall j : nat, (j < i)%nat ->
          stored db (candidate (urandom env) (coupon_prefix offer) j) = true) ->
      stored db (candidate (urandom env) (coupon_prefix offer) i) = false ->
      claim_offer env db offer_id =
        (Db.mk (Db.offers db)
               (Db.coupons db ++
                [issued_row env db offer
                   (candidate (urandom env) (coupon_prefix offer) i)])%list,
         Json 200
           (claim_json env (candidate (urandom env) (coupon_prefix offer) i)
              (issued_row env db offer
                 (candidate (urandom env) (coupon_prefix offer) i))))) /\
  ((forall s, In s (candidates (urandom env) (coupon_prefix offer)) ->
              stored db s = true) ->
   claim_loop (Py.range 10) (urandom env) 0 db (coupon_prefix offer) = inr None /\
   CouponCode.code (new_coupon offer None) = None /\
   Db.add_coupon (utcnow env) db (new_coupon offer None) = inl Py.IntegrityError /\
   claim_offer env db offer_id = (db, Unhandled Py.IntegrityError)).
Proof.
  intros Hget. split; [reflexivity|]. split; [apply claim_loop_range|]. split.
  - intros i _ Hi Hbefore Hat.
    rewrite (claim_offer_found env db offer_id offer Hget),
            (first_fresh_at env db offer i Hi Hbefore Hat).
    reflexivity.
  - intros Hall. apply first_fresh_None in Hall.
    rewrite claim_loop_range, (claim_offer_found env db offer_id offer Hget), Hall.
    auto.
Qed.

Lemma claim_retries_then_null_code_witness :
  claim_offer (Sample.env_on 4 Sample.ramp)
              (fst (claim_offer (Sample.env_on 3 Sample.ramp) Sample.db0 1)) 1 =
    (Db.mk (Db.offers (fst (claim_offer (Sample.env_on 3 Sample.ramp) Sample.db0 1)))
           (Db.coupons (fst (claim_offer (Sample.env_on 3 Sample.ramp) Sample.db0 1)) ++
            [issued_row (Sample.env_on 4 Sample.ramp)
               (fst (claim_offer (Sample.env_on 3 Sample.ramp) Sample.db0 1))
               Sample.chipotle
               (candidate Sample.ramp (coupon_prefix Sample.chipotle) 1)])%list,
     Json 200
       (claim_json (Sample.env_on 4 Sample.ramp)
          (candidate Sample.ramp (coupon_prefix Sample.chipotle) 1)
          (issued_row (Sample.env_on 4 Sample.ramp)
             (fst (claim_offer (Sample.env_on 3 Sample.ramp) Sample.db0 1))
             Sample.chipotle
             (candidate Sample.ramp (coupon_prefix Sample.chipotle) 1)))) /\
  claim_offer (Sample.env_on 3 Sample.zeros) Sample.db1 1 =
    (Sample.db1, Unhandled Py.IntegrityError).
Proof.
  split.
  - refine (proj1 (proj2 (proj2
      (claim_retries_then_null_code (Sample.env_on 4 Sample.ramp)
         (fst (claim_offer (Sample.env_on 3 Sample.ramp) Sample.db0 1)) 1
         Sample.chipotle _))) 1%nat _ _ _ _).
    + reflexivity.
    + reflexivity.
    + lia.
    + intros j Hj. assert (j = 0)%nat by lia. subst j. reflexivity.
    + reflexivity.
  - refine (proj2 (proj2 (proj2 (proj2 (proj2 (proj2
      (claim_retries_then_null_code (Sample.env_on 3 Sample.zeros) Sample.db1 1
         Sample.chipotle _))) _)))).
    + reflexivity.
    + intros s Hs. vm_compute in Hs.
      repeat (destruct Hs as [<-|Hs]; [reflexivity|]). destruct Hs.
Defined.

(** ** The code generator *)

(** C7, at the length 7: the token that [generate_code] returns has six
    characters, whatever the random bytes are. *)
Theorem generate_code_length_7
        (rnd : Secrets.entropy) (pos : nat) (prefix : string) :
  exists token : string,
    generate_code rnd pos prefix 7 = inr (prefix ++ "-" ++ token, (pos + 3)%nat) /\
    String.length token = 6%nat /\
    string_forallb is_upper_hex token = true.
Proof.
  destruct (generate_code_token rnd pos prefix 7 ltac:(lia)) as (Hg & Hl & Ha).
  eexists. split; [exact Hg|]. split; [exact Hl | exact Ha].
Qed.

(** For an even length that is not negative the token has that length. *)
Lemma generate_code_even_length
      (rnd : Secrets.entropy) (pos : nat) (prefix : string) (half : Z) :
  0 <= half ->
  exists token : string,
    generate_code rnd pos prefix (2 * half) =
      inr (prefix ++ "-" ++ token, (pos + Z.to_nat half)%nat) /\
    Z.of_nat (String.length token) = 2 * half /\
    string_forallb is_upper_hex token = true.
Proof.
  intros H.
  destruct (generate_code_token rnd pos prefix (2 * half) ltac:(lia)) as (Hg & Hl & Ha).
  replace (2 * half / 2) with half in * by (rewrite Z.mul_comm, Z.div_mul; lia).
  eexists. split; [exact Hg|]. split; [rewrite Hl; lia | exact Ha].
Qed.

(** A negative length is refused: [os.urandom] raises. *)
Lemma generate_code_negative_length
      (rnd : Secrets.entropy) (pos : nat) (prefix : string) (length : Z) :
  length < 0 -> generate_code rnd pos prefix length = inl Py.ValueError.
Proof.
  intros H. unfold generate_code, Secrets.token_hex, Secrets.token_bytes.
  assert (length / 2 < 0) by (apply Z.div_lt_upper_bound; lia).
  destruct (Z.ltb_spec (length / 2) 0); [reflexivity | lia].
Qed.

(** ** Uniqueness of codes *)

Lemma wf_db1 : wf Sample.db1.
Proof.
  split; simpl; repeat constructor; simpl; try tauto; discriminate.
Qed.

Lemma wf_db0 : wf Sample.db0.
Proof.
  split; simpl; repeat constructor; simpl; try tauto; discriminate.
Qed.

(** C3: the coupon that a successful claim issues has a code that no coupon
    stored before carries; and after any request, and any sequence of
    requests, all stored codes are set and pairwise distinct.  This holds in
    every state that the application reaches from its boot. *)
Theorem issued_code_is_unique (env : Env) (db : Db.t) (offer_id : Z) :
  wf db ->
  (status_code (snd (claim_offer env db offer_id)) = 200 ->
   exists (c : CouponCode.t) (k : string),
     Db.coupons (fst (claim_offer env db offer_id)) = (Db.coupons db ++ [c])%list /\
     CouponCode.code c = Some k /\
     forall c0 : CouponCode.t, In c0 (Db.coupons db) -> CouponCode.code c0 <> Some k) /\
  (forall (env' : Env) (req : Request),
      NoDup (map CouponCode.code (Db.coupons (fst (handle env' db req)))) /\
      Forall (fun k => k <> None)
             (map CouponCode.code (Db.coupons (fst (handle env' db req))))) /\
  (forall reqs : list (Env * Request),
      NoDup (map CouponCode.code (Db.coupons (run db reqs)))) /\
  (forall (now : Datetime.datetime) (reqs : list (Env * Request)),
      NoDup (map CouponCode.code (Db.coupons (run (seed now Db.empty) reqs)))).
Proof.
  intros Hwf. split; [|split; [|split]].
  - intros Hok. destruct (Db.get_offer db offer_id) as [offer|] eqn:Hget.
    + rewrite (claim_offer_found env db offer_id offer Hget) in *.
      destruct (first_fresh env db offer) as [k|] eqn:E; [|discriminate Hok].
      exists (issued_row env db offer k), k.
      split; [reflexivity|]. split; [reflexivity|].
      intros c0 Hin Hc. apply first_fresh_stored in E.
      apply stored_false_not_In in E. apply E. rewrite <- Hc.
      apply in_map. exact Hin.
    + destruct (claim_offer_absent env db offer_id Hget) as [_ [H|H]];
        rewrite H in Hok; discriminate Hok.
  - intros env' req. destruct (wf_handle env' db req Hwf). auto.
  - intros reqs. apply (wf_codes _ (wf_run reqs db Hwf)).
  - intros now reqs. apply (wf_codes _ (wf_run reqs _ (wf_seed now))).
Qed.

Lemma issued_code_is_unique_witness :
  exists (c : CouponCode.t) (k : string),
    Db.coupons (fst (claim_offer (Sample.env_on 3 Sample.ramp) Sample.db1 1)) =
      (Db.coupons Sample.db1 ++ [c])%list /\
    CouponCode.code c = Some k /\
    forall c0 : CouponCode.t, In c0 (Db.coupons Sample.db1) -> CouponCode.code c0 <> Some k.
Proof.
  apply (proj1 (issued_code_is_unique (Sample.env_on 3 Sample.ramp) Sample.db1 1 wf_db1)).
  reflexivity.
Defined.

(** ** Claims do not touch offers *)

Lemma claim_offer_offers (env : Env) (db : Db.t) (offer_id : Z) :
  Db.offers (fst (claim_offer env db offer_id)) = Db.offers db.
Proof.
  destruct (Db.get_offer db offer_id) as [offer|] eqn:Hget.
  - rewrite (claim_offer_found env db offer_id offer Hget).
    destruct (first_fresh env db offer); reflexivity.
  - rewrite (proj1 (claim_offer_absent env db offer_id Hget)). reflexivity.
Qed.

Lemma run_claims_offers (offer_id : Z) (envs : list Env) (db : Db.t) :
  Db.offers (run db (claims offer_id envs)) = Db.offers db.
Proof.
  revert db. induction envs as [|env envs IH]; intros db; [reflexivity|].
  cbn [claims map run handle]. fold (claims offer_id envs).
  rewrite IH. apply claim_offer_offers.
Qed.

Lemma has_fresh_first (env : Env) (db : Db.t) (offer_id : Z) :
  has_fresh env db offer_id ->
  exists (offer : Offer.t) (k : string),
    Db.get_offer db offer_id = Some offer /\ first_fresh env db offer = Some k.
Proof.
  intros (offer & s & Hget & Hin & Hs). exists offer.
  destruct (first_fresh env db offer) as [k|] eqn:E; [exists k; auto|].
  exfalso. apply (proj1 (first_fresh_None env db offer)) with (s := s) in E; [|exact Hin].
  congruence.
Qed.

Lemma claims_all_succeed (offer_id : Z) (envs : list Env) (db : Db.t) :
  all_fresh db offer_id envs ->
  exists news : list CouponCode.t,
    Db.coupons (run db (claims offer_id envs)) = (Db.coupons db ++ news)%list /\
    List.length news = List.length envs /\
    Forall (fun c => CouponCode.offer_id c = Some offer_id) news /\
    NoDup (map CouponCode.code news) /\
    (forall c, In c news ->
               ~ In (CouponCode.code c) (map CouponCode.code (Db.coupons db))).
Proof.
  revert db. induction envs as [|env envs IH]; intros db Hall.
  - exists []. cbn [claims map run]. rewrite app_nil_r.
    repeat split; try constructor. intros c [].
  - destruct Hall as [Hfresh Hrest].
    destruct (has_fresh_first env db offer_id Hfresh) as (offer & k & Hget & Hk).
    cbn [claims map run handle]. fold (claims offer_id envs).
    rewrite (claim_offer_found env db offer_id offer Hget), Hk in *.
    cbn [fst] in *.
    destruct (IH _ Hrest) as (news & Hc & Hl & Hf & Hnd & Hout).
    cbn [Db.coupons] in Hc, Hout.
    exists (issued_row env db offer k :: news).
    destruct (get_offer_id _ _ _ Hget) as [_ Hid].
    split; [rewrite Hc, <- app_assoc; reflexivity|].
    split; [cbn [List.length]; congruence|].
    split; [constructor; [exact Hid | exact Hf]|].
    split.
    + cbn [map]. constructor; [|exact Hnd].
      intros Hin. apply in_map_iff in Hin. destruct Hin as (c & Hcode & Hcin).
      apply (Hout c Hcin). rewrite Hcode, map_app, in_app_iff. right. left. reflexivity.
    + intros c [<-|Hcin].
      * cbn [issued_row CouponCode.code]. apply stored_false_not_In.
        exact (first_fresh_stored _ _ _ _ Hk).
      * intros Hin. apply (Hout c Hcin). rewrite map_app, in_app_iff. left. exact Hin.
Qed.

(** C9: a claim leaves the table of offers exactly as it was, whatever its
    outcome; and claims of one offer can follow one another without limit:
    whenever each finds an unused code, each adds one more coupon of that
    offer, with codes pairwise distinct and distinct from those stored
    before, and the offers are still untouched. *)
Theorem claim_never_touches_offers (db : Db.t) (offer_id : Z) (envs : list Env) :
  (forall env : Env, Db.offers (fst (claim_offer env db offer_id)) = Db.offers db) /\
  Db.offers (run db (claims offer_id envs)) = Db.offers db /\
  (all_fresh db offer_id envs ->
   exists news : list CouponCode.t,
     Db.coupons (run db (claims offer_id envs)) = (Db.coupons db ++ news)%list /\
     List.length news = List.length envs /\
     Forall (fun c => CouponCode.offer_id c = Some offer_id) news /\
     NoDup (map CouponCode.code news) /\
     (forall c, In c news ->
                ~ In (CouponCode.code c) (map CouponCode.code (Db.coupons db)))).
Proof.
  split; [intros env; apply claim_offer_offers|].
  split; [apply run_claims_offers | apply claims_all_succeed].
Qed.

Lemma claim_never_touches_offers_witness :
  exists news : list CouponCode.t,
    Db.coupons (run Sample.db0 (claims 1 Sample.three_envs)) =
      (Db.coupons Sample.db0 ++ news)%list /\
    List.length news = List.length Sample.three_envs /\
    Forall (fun c => CouponCode.offer_id c = Some 1) news /\
    NoDup (map CouponCode.code news) /\
    (forall c, In c news ->
               ~ In (CouponCode.code c) (map CouponCode.code (Db.coupons Sample.db0))).
Proof.
  apply (proj2 (proj2 (claim_never_touches_offers Sample.db0 1 Sample.three_envs))).
  cbn [all_fresh Sample.three_envs]. split; [|split; [|split; [|exact I]]].
  - exists Sample.chipotle, "CHIP-0B30557A9F".
    split; [reflexivity|]. split; [vm_compute; auto 12 | reflexivity].
  - exists Sample.chipotle, "CHIP-0000000000".
    split; [reflexivity|]. split; [vm_compute; auto 12 | reflexivity].
  - exists Sample.chipotle, "CHIP-C4E90E3358".
    split; [reflexivity|]. split; [vm_compute; auto 12 | reflexivity].
Defined.

(** ** Redemption is one-way *)

Lemma create_offer_coupons (env : Env) (db : Db.t) (form : MultiDict) :
  Db.coupons (fst (create_offer_post env db form)) = Db.coupons db.
Proof.
  unfold create_offer_post.
  destruct (get form "restaurant"); [|reflexivity].
  destruct (get form "description"); [|reflexivity].
  destruct (get form "expires"); [|reflexivity].
  destruct (negb _); [reflexivity|].
  destruct (strptime env _ _); reflexivity.
Qed.

Lemma coupon_id_set (db : Db.t) (c : CouponCode.t) :
  wf db -> In c (Db.coupons db) -> CouponCode.id c <> None.
Proof.
  intros Hwf Hin. pose proof (wf_coupon_keys _ Hwf) as H.
  rewrite Forall_forall in H. apply H, in_map, Hin.
Qed.

(** The UPDATE stores the new values of the row it targets. *)
Lemma update_coupon_In (db : Db.t) (c c' : CouponCode.t) :
  wf db -> In c (Db.coupons db) -> CouponCode.id c' = CouponCode.id c ->
  In c' (Db.coupons (Db.update_coupon db c')).
Proof.
  intros Hwf Hin Hid. unfold Db.update_coupon. cbn [Db.coupons].
  apply in_map_iff. exists c. split; [|exact Hin].
  rewrite (proj2 (same_id_iff _ _)); [reflexivity|].
  split; [congruence | exact (coupon_id_set db c Hwf Hin)].
Qed.

(** The UPDATE leaves every other row as it is. *)
Lemma update_coupon_other (db : Db.t) (c c' r : CouponCode.t) :
  wf db -> In c (Db.coupons db) -> CouponCode.id c' = CouponCode.id c ->
  In r (Db.coupons db) -> r <> c ->
  In r (Db.coupons (Db.update_coupon db c')).
Proof.
  intros Hwf Hin Hid Hr Hne. unfold Db.update_coupon. cbn [Db.coupons].
  apply in_map_iff. exists r. split; [|exact Hr].
  destruct (Db.same_id (CouponCode.id r) (CouponCode.id c')) eqn:E; [|reflexivity].
  exfalso. apply Hne. apply same_id_iff in E. destruct E as [E _].
  apply (NoDup_map_eq CouponCode.id (Db.coupons db)); try assumption.
  - exact (wf_coupon_ids _ Hwf).
  - congruence.
Qed.

(** No request changes a coupon that is redeemed. *)
Lemma redeemed_row_stays (env : Env) (db : Db.t) (req : Request) (c : CouponCode.t) :
  wf db -> In c (Db.coupons db) -> CouponCode.is_redeemed c = true ->
  In c (Db.coupons (fst (handle env db req))).
Proof.
  intros Hwf Hin Hred. destruct req; cbn [handle fst]; try exact Hin.
  - rewrite create_offer_coupons. exact Hin.
  - destruct (Db.get_offer db offer_id) as [offer|] eqn:Hget.
    + rewrite (claim_offer_found env db offer_id offer Hget).
      destruct (first_fresh env db offer); [|exact Hin].
      cbn [fst Db.coupons]. apply in_app_iff. left. exact Hin.
    + rewrite (proj1 (claim_offer_absent env db offer_id Hget)). exact Hin.
  - rewrite route_view_coupon_reads. exact Hin.
  - rewrite route_coupon_qr_reads. exact Hin.
  - destruct (String.eqb_spec (lookup_code form) "") as [He|He].
    + rewrite redeem_missing by exact He. exact Hin.
    + destruct (Db.first_by_code db (lookup_code form)) as [c0|] eqn:Hf.
      * rewrite (redeem_found env db form c0 He Hf).
        destruct (CouponCode.is_expired (today env) c0); [exact Hin|].
        destruct (CouponCode.is_redeemed c0) eqn:Hr0; [exact Hin|].
        cbn [fst]. apply first_by_code_In in Hf. destruct Hf as [Hin0 _].
        apply (update_coupon_other db c0); try assumption.
        -- apply redeemed_row_keeps.
        -- intros ->. congruence.
      * rewrite redeem_unknown by assumption. exact Hin.
Qed.

Lemma redeemed_row_stays_run (reqs : list (Env * Request)) (db : Db.t) (c : CouponCode.t) :
  wf db -> In c (Db.coupons db) -> CouponCode.is_redeemed c = true ->
  In c (Db.coupons (run db reqs)).
Proof.
  revert db. induction reqs as [|[env req] reqs IH]; intros db Hwf Hin Hred;
    [exact Hin|].
  cbn [run]. apply IH; [apply wf_handle, Hwf | apply redeemed_row_stays; assumption | exact Hred].
Qed.

Lemma wf_db2 : wf Sample.db2.
Proof.
  split; simpl; repeat constructor; simpl; try tauto; discriminate.
Qed.

(** C2, as the code has it: no request, and no sequence of requests, changes
    a stored coupon whose redemption timestamp is set, so a timestamp once
    set stays as it is.  Redeeming a coupon that is neither expired nor
    redeemed succeeds and sets its timestamp to the time of that request;
    any later attempt on its code, after any requests in between, does not
    succeed: it is answered 409, or 410 when the expiration date has passed
    by then. *)
Theorem redeem_is_one_way (db : Db.t) :
  wf db ->
  (forall (r : CouponCode.t) (t : Datetime.datetime) (reqs : list (Env * Request)),
      In r (Db.coupons db) -> CouponCode.redeemed_at r = Some t ->
      In r (Db.coupons (run db reqs))) /\
  (forall (c : CouponCode.t) (env1 env2 : Env) (form1 form2 : MultiDict)
          (reqs : list (Env * Request)),
      In c (Db.coupons db) ->
      lookup_code form1 <> "" ->
      CouponCode.code c = Some (lookup_code form1) ->
      lookup_code form2 = lookup_code form1 ->
      CouponCode.is_expired (today env1) c = false ->
      CouponCode.redeemed_at c = None ->
      redeem_status env1 db form1 = 200 /\
      (exists c' : CouponCode.t,
          In c' (Db.coupons (run (fst (redeem env1 db form1)) reqs)) /\
          CouponCode.id c' = CouponCode.id c /\
          CouponCode.code c' = CouponCode.code c /\
          CouponCode.redeemed_at c' = Some (utcnow env1)) /\
      redeem_status env2 (run (fst (redeem env1 db form1)) reqs) form2 =
        (if CouponCode.is_expired (today env2) c then 410 else 409)).
Proof.
  intros Hwf. split.
  - intros r t reqs Hr Ht. apply redeemed_row_stays_run; try assumption.
    unfold CouponCode.is_redeemed. rewrite Ht. reflexivity.
  - intros c env1 env2 form1 form2 reqs Hin Hne Hcode Hsame Hlive Hfree.
    assert (Hf : Db.first_by_code db (lookup_code form1) = Some c)
      by (apply first_by_code_unique; [apply (wf_codes _ Hwf) | exact Hin | exact Hcode]).
    assert (Hnr : CouponCode.is_redeemed c = false)
      by (unfold CouponCode.is_redeemed; rewrite Hfree; reflexivity).
    unfold redeem_status.
    rewrite (redeem_found env1 db form1 c Hne Hf), Hlive, Hnr. cbn [fst snd status_code].
    split; [reflexivity|].
    destruct (redeemed_row_keeps env1 form1 c) as (Hid & Hc & Hexp & Hat).
    set (c' := redeemed_row env1 form1 c) in *.
    set (db1 := Db.update_coupon db c').
    assert (Hwf1 : wf db1) by (apply (wf_update_coupon db c); assumption).
    assert (Hin1 : In c' (Db.coupons db1)) by (apply (update_coupon_In db c); assumption).
    assert (Hred : CouponCode.is_redeemed c' = true)
      by (unfold CouponCode.is_redeemed; rewrite Hat; reflexivity).
    assert (Hstay : In c' (Db.coupons (run db1 reqs)))
      by (apply redeemed_row_stays_run; assumption).
    split; [exists c'; auto|].
    assert (Hf2 : Db.first_by_code (run db1 reqs) (lookup_code form2) = Some c').
    { apply first_by_code_unique.
      - apply (wf_codes _ (wf_run reqs db1 Hwf1)).
      - exact Hstay.
      - congruence. }
    rewrite (redeem_found env2 _ form2 c'); [|congruence|exact Hf2].
    unfold CouponCode.is_expired. rewrite Hexp, Hred.
    destruct (Datetime.gt (today env2) (CouponCode.expires c)); reflexivity.
Qed.

Lemma redeem_is_one_way_witness :
  In (Sample.coupon 1 "CHIP-0000000000" (Some (Sample.at_noon (Sample.nov 2))))
     (Db.coupons (run Sample.db2
                      [(Sample.env_on 3 Sample.zeros,
                        POST_redeem (Sample.code_form "chip-0000000000"));
                       (Sample.env_on 3 Sample.ramp, POST_claim 1)])) /\
  redeem_status (Sample.env_on 5 Sample.zeros) Sample.db1
                (Sample.code_form " chip-0000000000") = 200 /\
  redeem_status (Sample.env_on 5 Sample.ramp)
                (run (fst (redeem (Sample.env_on 5 Sample.zeros) Sample.db1
                                  (Sample.code_form " chip-0000000000")))
                     (claims 1 Sample.three_envs))
                (Sample.code_form "CHIP-0000000000") = 409.
Proof.
  split.
  - apply (proj1 (redeem_is_one_way Sample.db2 wf_db2)
             (Sample.coupon 1 "CHIP-0000000000" (Some (Sample.at_noon (Sample.nov 2))))
             (Sample.at_noon (Sample.nov 2))).
    + simpl. auto.
    + reflexivity.
  - destruct (proj2 (redeem_is_one_way Sample.db1 wf_db1)
                (Sample.coupon 1 "CHIP-0000000000" None)
                (Sample.env_on 5 Sample.zeros) (Sample.env_on 5 Sample.ramp)
                (Sample.code_form " chip-0000000000")
                (Sample.code_form "CHIP-0000000000")
                (claims 1 Sample.three_envs))
      as (H1 & _ & H2).
    + simpl. auto.
    + vm_compute. discriminate.
    + reflexivity.
    + reflexivity.
    + reflexivity.
    + reflexivity.
    + split; [exact H1 | exact H2].
Defined.

(** C2, as stated, fails: a coupon redeemed on its day of expiry and
    presented again the day after is answered 410, not 409. *)
Lemma second_redeem_after_expiry :
  redeem_status (Sample.env_on 5 Sample.zeros) Sample.db1
                (Sample.code_form "CHIP-0000000000") = 200 /\
  redeem_status (Sample.env_on 6 Sample.zeros)
                (fst (redeem (Sample.env_on 5 Sample.zeros) Sample.db1
                             (Sample.code_form "CHIP-0000000000")))
                (Sample.code_form "CHIP-0000000000") = 410 /\
  redeem_status (Sample.env_on 6 Sample.zeros)
                (fst (redeem (Sample.env_on 5 Sample.zeros) Sample.db1
                             (Sample.code_form "CHIP-0000000000")))
                (Sample.code_form "CHIP-0000000000") <> 409.
Proof.
  split; [reflexivity|]. split; [reflexivity|]. vm_compute. discriminate.
Qed.

(** * Further properties of the handlers *)

(** ** [strip] and [upper] as normal forms *)

Lemma lstrip_fixed (s : string) : no_leading_space s -> Py.lstrip s = s.
Proof.
  destruct s as [|c s]; simpl; [reflexivity|]. intros ->. reflexivity.
Qed.

Lemma lstrip_clean (s : string) : no_leading_space (Py.lstrip s).
Proof.
  destruct (lstrip_decompose s) as (l & _ & _ & H). exact H.
Qed.

Lemma strip_clean (s : string) : no_leading_space (Py.strip s).
Proof.
  apply lstrip_clean.
Qed.

Lemma rstrip_idem (s : string) : Py.rstrip (Py.rstrip s) = Py.rstrip s.
Proof.
  induction s as [|c s IH]; [reflexivity|].
  cbn [Py.rstrip]. destruct (Py.rstrip s) as [|c' r] eqn:E.
  - destruct (Py.isspace c) eqn:Ec; [reflexivity|].
    cbn [Py.rstrip]. rewrite Ec. reflexivity.
  - change (Py.rstrip (String c (String c' r)))
      with (match Py.rstrip (String c' r) with
            | EmptyString => if Py.isspace c then EmptyString else String c EmptyString
            | String _ _ as r0 => String c r0
            end).
    rewrite IH. reflexivity.
Qed.

Lemma rstrip_lstrip (s : string) :
  Py.rstrip s = s -> Py.rstrip (Py.lstrip s) = Py.lstrip s.
Proof.
  induction s as [|c s IH]; [reflexivity|].
  intros H. cbn [Py.lstrip]. destruct (Py.isspace c) eqn:Ec; [|exact H].
  apply IH. cbn [Py.rstrip] in H. rewrite Ec in H.
  destruct (Py.rstrip s) as [|c' r]; [discriminate H|].
  injection H as H. exact H.
Qed.

Lemma strip_idem (s : string) : Py.strip (Py.strip s) = Py.strip s.
Proof.
  unfold Py.strip.
  rewrite (rstrip_lstrip (Py.rstrip s) (rstrip_idem s)).
  apply lstrip_fixed, lstrip_clean.
Qed.

Lemma isspace_upper_char (c : ascii) : Py.isspace (Py.upper_char c) = Py.isspace c.
Proof.
  destruct c as [[] [] [] [] [] [] [] []]; reflexivity.
Qed.

Lemma lstrip_upper (s : string) : Py.lstrip (Py.upper s) = Py.upper (Py.lstrip s).
Proof.
  induction s as [|c s IH]; [reflexivity|].
  cbn [Py.upper Py.lstrip]. rewrite isspace_upper_char.
  destruct (Py.isspace c); [exact IH | reflexivity].
Qed.

Lemma rstrip_upper (s : string) : Py.rstrip (Py.upper s) = Py.upper (Py.rstrip s).
Proof.
  induction s as [|c s IH]; [reflexivity|].
  cbn [Py.upper Py.rstrip]. rewrite IH, isspace_upper_char.
  destruct (Py.rstrip s) as [|c' r]; [destruct (Py.isspace c)|]; reflexivity.
Qed.

Lemma strip_upper (s : string) : Py.strip (Py.upper s) = Py.upper (Py.strip s).
Proof.
  unfold Py.strip. rewrite rstrip_upper, lstrip_upper. reflexivity.
Qed.

Lemma or_empty_Some (s : string) : Py.or_empty (Some s) = s.
Proof.
  unfold Py.or_empty. destruct (Py.truthy s) eqn:E; [reflexivity|].
  apply truthy_false_iff in E. congruence.
Qed.

Lemma lookup_code_redeem_form (code who : string) :
  lookup_code (redeem_form code who) = Py.upper (Py.strip code).
Proof.
  unfold lookup_code, submitted_code.
  change (get (redeem_form code who) "code") with (Some code).
  rewrite or_empty_Some. reflexivity.
Qed.

Lemma redeemer_redeem_form (code who : string) :
  redeemer (redeem_form code who) = Py.strip who.
Proof.
  unfold redeemer.
  change (get (redeem_form code who) "redeemed_by") with (Some who).
  rewrite or_empty_Some. reflexivity.
Qed.

(** [redeem] reads the form only through the normalised code and the
    trimmed name. *)
Lemma redeem_ext (env : Env) (db : Db.t) (form1 form2 : MultiDict) :
  lookup_code form1 = lookup_code form2 ->
  redeemer form1 = redeemer form2 ->
  redeem env db form1 = redeem env db form2.
Proof.
  intros Hc Hw. unfold redeem.
  fold (submitted_code form1) (submitted_code form2)
       (lookup_code form1) (lookup_code form2) (redeemer form1) (redeemer form2).
  rewrite Hc, Hw. reflexivity.
Qed.

(** X1: the code field of a redeem request is insensitive to case and to
    surrounding whitespace: submitting the trimmed and uppercased code (and
    the trimmed name) gives the same tables and the same response as
    submitting the raw values. *)
Theorem redeem_normalised_input (env : Env) (db : Db.t) (code who : string) :
  redeem env db (redeem_form (Py.upper (Py.strip code)) (Py.strip who)) =
  redeem env db (redeem_form code who).
Proof.
  apply redeem_ext.
  - rewrite !lookup_code_redeem_form, strip_upper, strip_idem, upper_idem.
    reflexivity.
  - rewrite !redeemer_redeem_form. apply strip_idem.
Qed.

(** ** What a successful redemption writes *)

Lemma redeem_ok_inv (env : Env) (db : Db.t) (form : MultiDict) :
  redeem_status env db form = 200 ->
  exists c : CouponCode.t,
    lookup_code form <> "" /\
    Db.first_by_code db (lookup_code form) = Some c /\
    CouponCode.is_expired (today env) c = false /\
    CouponCode.redeemed_at c = None /\
    fst (redeem env db form) = Db.update_coupon db (redeemed_row env form c).
Proof.
  unfold redeem_status.
  destruct (String.eqb_spec (lookup_code form) "") as [He|He].
  - rewrite redeem_missing by exact He. discriminate.
  - destruct (Db.first_by_code db (lookup_code form)) as [c|] eqn:Hf.
    + rewrite (redeem_found env db form c He Hf).
      destruct (CouponCode.is_expired (today env) c) eqn:Hx; [discriminate|].
      destruct (CouponCode.is_redeemed c) eqn:Hr; [discriminate|].
      intros _. exists c. repeat (split; [assumption || reflexivity|]).
      split; [|reflexivity]. unfold CouponCode.is_redeemed in Hr.
      destruct (CouponCode.redeemed_at c); congruence.
    + rewrite redeem_unknown by assumption. discriminate.
Qed.

Lemma redeemed_row_fields (env : Env) (form : MultiDict) (c : CouponCode.t) :
  redeemed_row env form c =
  CouponCode.mk (CouponCode.id c) (CouponCode.offer_id c) (CouponCode.restaurant c)
    (CouponCode.description c) (CouponCode.code c) (CouponCode.expires c)
    (CouponCode.created_at c) (Some (utcnow env))
    (if Py.truthy (redeemer form) then Some (redeemer form)
     else CouponCode.redeemed_by c).
Proof.
  unfold redeemed_row. destruct (Py.truthy (redeemer form)); reflexivity.
Qed.

Lemma update_coupon_split (offers : list Offer.t)
      (before after : list CouponCode.t) (c c' : CouponCode.t) :
  NoDup (map CouponCode.id (before ++ c :: after)) ->
  CouponCode.id c <> None ->
  CouponCode.id c' = CouponCode.id c ->
  Db.coupons (Db.update_coupon (Db.mk offers (before ++ c :: after)) c') =
  (before ++ c' :: after)%list.
Proof.
  intros Hnd Hset Hid. unfold Db.update_coupon. cbn [Db.coupons].
  rewrite map_app in Hnd. cbn [map] in Hnd.
  pose proof (NoDup_remove_2 _ _ _ Hnd) as Hout. rewrite in_app_iff in Hout.
  assert (Hother : forall l, ~ In (CouponCode.id c) (map CouponCode.id l) ->
            map (fun r => if Db.same_id (CouponCode.id r) (CouponCode.id c')
                          then c' else r) l = l).
  { intros l Hl. rewrite <- (map_id l) at 2. apply map_ext_in. intros r Hr.
    destruct (Db.same_id (CouponCode.id r) (CouponCode.id c')) eqn:E; [|reflexivity].
    exfalso. apply Hl. apply same_id_iff in E. destruct E as [E _].
    rewrite <- Hid, <- E. apply in_map. exact Hr. }
  rewrite map_app. cbn [map].
  rewrite !Hother by tauto.
  rewrite (proj2 (same_id_iff _ _)) by (split; congruence). reflexivity.
Qed.

(** X2: a successful redemption changes exactly one stored coupon, the one
    that carries the normalised code, and only its two redemption fields:
    the timestamp becomes the current UTC time, and the redeemer's name is
    stored when the trimmed name is not empty.  Every other coupon and every
    offer stay as they were. *)
Theorem redeem_success_effect (env : Env) (db : Db.t) (form : MultiDict) :
  wf db ->
  redeem_status env db form = 200 ->
  exists (before after : list CouponCode.t) (c : CouponCode.t),
    Db.coupons db = (before ++ c :: after)%list /\
    CouponCode.code c = Some (lookup_code form) /\
    CouponCode.redeemed_at c = None /\
    Db.offers (fst (redeem env db form)) = Db.offers db /\
    Db.coupons (fst (redeem env db form)) =
      (before ++
       CouponCode.mk (CouponCode.id c) (CouponCode.offer_id c)
         (CouponCode.restaurant c) (CouponCode.description c) (CouponCode.code c)
         (CouponCode.expires c) (CouponCode.created_at c) (Some (utcnow env))
         (if Py.truthy (redeemer form) then Some (redeemer form)
          else CouponCode.redeemed_by c)
       :: after)%list.
Proof.
  intros Hwf Hok.
  destruct (redeem_ok_inv env db form Hok) as (c & _ & Hf & _ & Hfree & Hdb).
  apply first_by_code_In in Hf. destruct Hf as [Hin Hcode].
  destruct (in_split _ _ Hin) as (before & after & Hsplit).
  exists before, after, c. rewrite Hdb, <- redeemed_row_fields.
  repeat (split; [assumption || reflexivity|]).
  destruct db as [offers coupons]. cbn [Db.coupons] in *. subst coupons.
  apply update_coupon_split.
  - exact (wf_coupon_ids _ Hwf).
  - apply (coupon_id_set _ c Hwf). cbn [Db.coupons]. exact Hin.
  - apply redeemed_row_keeps.
Qed.

Lemma redeem_success_effect_witness :
  exists (before after : list CouponCode.t) (c : CouponCode.t),
    Db.coupons Sample.db1 = (before ++ c :: after)%list /\
    CouponCode.code c = Some (lookup_code (redeem_form " chip-0000000000" " Alice ")) /\
    CouponCode.redeemed_at c = None /\
    Db.offers (fst (redeem (Sample.env_on 5 Sample.zeros) Sample.db1
                           (redeem_form " chip-0000000000" " Alice "))) =
      Db.offers Sample.db1 /\
    Db.coupons (fst (redeem (Sample.env_on 5 Sample.zeros) Sample.db1
                            (redeem_form " chip-0000000000" " Alice "))) =
      (before ++
       CouponCode.mk (CouponCode.id c) (CouponCode.offer_id c)
         (CouponCode.restaurant c) (CouponCode.description c) (CouponCode.code c)
         (CouponCode.expires c) (CouponCode.created_at c)
         (Some (utcnow (Sample.env_on 5 Sample.zeros)))
         (if Py.truthy (redeemer (redeem_form " chip-0000000000" " Alice "))
          then Some (redeemer (redeem_form " chip-0000000000" " Alice "))
          else CouponCode.redeemed_by c)
       :: after)%list.
Proof.
  apply (redeem_success_effect (Sample.env_on 5 Sample.zeros) Sample.db1
           (redeem_form " chip-0000000000" " Alice ")).
  - exact wf_db1.
  - reflexivity.
Defined.

(** ** Errors write nothing, on every route *)

Lemma claim_offer_error (env : Env) (db : Db.t) (offer_id : Z) :
  status_code (snd (claim_offer env db offer_id)) <> 200 ->
  fst (claim_offer env db offer_id) = db.
Proof.
  destruct (Db.get_offer db offer_id) as [offer|] eqn:Hget.
  - rewrite (claim_offer_found env db offer_id offer Hget).
    destruct (first_fresh env db offer); [|reflexivity].
    cbn [snd status_code]. congruence.
  - rewrite (proj1 (claim_offer_absent env db offer_id Hget)). reflexivity.
Qed.

Lemma create_offer_error (env : Env) (db : Db.t) (form : MultiDict) :
  status_code (snd (create_offer_post env db form)) <> 302 ->
  fst (create_offer_post env db form) = db.
Proof.
  unfold create_offer_post.
  destruct (get form "restaurant"); [|reflexivity].
  destruct (get form "description"); [|reflexivity].
  destruct (get form "expires"); [|reflexivity].
  destruct (negb _); [reflexivity|].
  destruct (strptime env _ _); [|reflexivity].
  cbn [Db.add_offer Py.ret snd status_code]. congruence.
Qed.

Lemma redeem_error (env : Env) (db : Db.t) (form : MultiDict) :
  redeem_status env db form <> 200 -> fst (redeem env db form) = db.
Proof.
  intros H. unfold redeem_status in H.
  destruct (String.eqb_spec (lookup_code form) "") as [He|He].
  - rewrite redeem_missing by exact He. reflexivity.
  - destruct (Db.first_by_code db (lookup_code form)) as [c|] eqn:Hf.
    + rewrite (redeem_found env db form c He Hf) in *.
      destruct (CouponCode.is_expired (today env) c); [reflexivity|].
      destruct (CouponCode.is_redeemed c); [reflexivity|].
      cbn [snd status_code] in H. congruence.
    + rewrite redeem_unknown by assumption. reflexivity.
Qed.

(** X3: on every route, a request that is answered with a status of 400 or
    above (a client error, or the 500 of an unhandled exception) leaves both
    tables exactly as they were. *)
Theorem error_responses_write_nothing (env : Env) (db : Db.t) (req : Request) :
  400 <= status_code (snd (handle env db req)) ->
  fst (handle env db req) = db.
Proof.
  intros H. destruct req; cbn [handle] in *; try reflexivity.
  - apply create_offer_error. lia.
  - apply claim_offer_error. lia.
  - apply route_view_coupon_reads.
  - apply route_coupon_qr_reads.
  - apply redeem_error. unfold redeem_status. lia.
Qed.

Lemma error_responses_write_nothing_witness :
  fst (handle (Sample.env_on 3 Sample.zeros) Sample.db1 (POST_claim 1)) = Sample.db1 /\
  fst (handle (Sample.env_on 6 Sample.zeros) Sample.db1
              (POST_redeem (Sample.code_form "CHIP-0000000000"))) = Sample.db1.
Proof.
  split.
  - apply (error_responses_write_nothing (Sample.env_on 3 Sample.zeros) Sample.db1
             (POST_claim 1)).
    vm_compute. discriminate.
  - apply (error_responses_write_nothing (Sample.env_on 6 Sample.zeros) Sample.db1
             (POST_redeem (Sample.code_form "CHIP-0000000000"))).
    vm_compute. discriminate.
Defined.

(** ** Rows are never removed *)

Lemma update_coupon_snapshots (db : Db.t) (c c' : CouponCode.t) :
  NoDup (map CouponCode.id (Db.coupons db)) ->
  In c (Db.coupons db) ->
  snapshot c' = snapshot c ->
  map snapshot (Db.coupons (Db.update_coupon db c')) = map snapshot (Db.coupons db).
Proof.
  intros Hnd Hin Hsnap. unfold Db.update_coupon. cbn [Db.coupons].
  rewrite map_map. apply map_ext_in. intros r Hr.
  destruct (Db.same_id (CouponCode.id r) (CouponCode.id c')) eqn:E; [|reflexivity].
  apply same_id_iff in E. destruct E as [E _].
  assert (Hid : CouponCode.id c' = CouponCode.id c)
    by (unfold snapshot in Hsnap; congruence).
  assert (r = c) by (apply (NoDup_map_eq CouponCode.id (Db.coupons db)); congruence).
  congruence.
Qed.

Lemma redeemed_row_snapshot (env : Env) (form : MultiDict) (c : CouponCode.t) :
  snapshot (redeemed_row env form c) = snapshot c.
Proof.
  rewrite redeemed_row_fields. reflexivity.
Qed.

Lemma create_offer_offers (env : Env) (db : Db.t) (form : MultiDict) :
  exists new : list Offer.t,
    Db.offers (fst (create_offer_post env db form)) = (Db.offers db ++ new)%list.
Proof.
  unfold create_offer_post.
  destruct (get form "restaurant"); [|exists []; symmetry; apply app_nil_r].
  destruct (get form "description"); [|exists []; symmetry; apply app_nil_r].
  destruct (get form "expires"); [|exists []; symmetry; apply app_nil_r].
  destruct (negb _); [exists []; symmetry; apply app_nil_r|].
  destruct (strptime env _ _); [|exists []; symmetry; apply app_nil_r].
  cbn [Db.add_offer Py.ret fst Db.offers]. eexists. reflexivity.
Qed.

Lemma redeem_offers (env : Env) (db : Db.t) (form : MultiDict) :
  Db.offers (fst (redeem env db form)) = Db.offers db.
Proof.
  destruct (Z.eq_dec (redeem_status env db form) 200) as [Hok|Hno].
  - destruct (redeem_ok_inv env db form Hok) as (c & _ & _ & _ & _ & ->). reflexivity.
  - rewrite redeem_error by exact Hno. reflexivity.
Qed.

Lemma redeem_snapshots (env : Env) (db : Db.t) (form : MultiDict) :
  wf db ->
  map snapshot (Db.coupons (fst (redeem env db form))) = map snapshot (Db.coupons db).
Proof.
  intros Hwf. destruct (Z.eq_dec (redeem_status env db form) 200) as [Hok|Hno].
  - destruct (redeem_ok_inv env db form Hok) as (c & _ & Hf & _ & _ & ->).
    apply first_by_code_In in Hf. destruct Hf as [Hin _].
    apply (update_coupon_snapshots db c); [apply (wf_coupon_ids _ Hwf) | exact Hin |].
    apply redeemed_row_snapshot.
  - rewrite redeem_error by exact Hno. reflexivity.
Qed.

Lemma handle_grows (env : Env) (db : Db.t) (req : Request) :
  wf db ->
  exists (new_offers : list Offer.t) (new_coupons : list CouponCode.t),
    Db.offers (fst (handle env db req)) = (Db.offers db ++ new_offers)%list /\
    map snapshot (Db.coupons (fst (handle env db req))) =
      (map snapshot (Db.coupons db) ++ map snapshot new_coupons)%list.
Proof.
  intros Hwf.
  assert (Hsame : forall db', Db.offers db' = Db.offers db ->
            map snapshot (Db.coupons db') = map snapshot (Db.coupons db) ->
            exists (new_offers : list Offer.t) (new_coupons : list CouponCode.t),
              Db.offers db' = (Db.offers db ++ new_offers)%list /\
              map snapshot (Db.coupons db') =
                (map snapshot (Db.coupons db) ++ map snapshot new_coupons)%list).
  { intros db' Ho Hc. exists [], []. rewrite Ho, Hc. cbn [map].
    rewrite !app_nil_r. auto. }
  destruct req; cbn [handle fst]; try (apply Hsame; reflexivity).
  - destruct (create_offer_offers env db form) as (new & Hnew).
    exists new, []. rewrite Hnew, create_offer_coupons. cbn [map].
    rewrite app_nil_r. auto.
  - destruct (Db.get_offer db offer_id) as [offer|] eqn:Hget.
    + rewrite (claim_offer_found env db offer_id offer Hget).
      destruct (first_fresh env db offer) as [k|]; [|apply Hsame; reflexivity].
      exists [], [issued_row env db offer k]. cbn [fst Db.offers Db.coupons].
      rewrite app_nil_r, map_app. auto.
    + rewrite (proj1 (claim_offer_absent env db offer_id Hget)). apply Hsame; reflexivity.
  - rewrite route_view_coupon_reads. apply Hsame; reflexivity.
  - rewrite route_coupon_qr_reads. apply Hsame; reflexivity.
  - apply Hsame; [apply redeem_offers | apply redeem_snapshots; exact Hwf].
Qed.

(** X4: no sequence of requests removes or changes an offer, and none
    removes a coupon or changes a coupon's key, offer reference, restaurant,
    description, code, expiration date or creation time: the offers before
    are a prefix of the offers after, and so are the coupons in those
    columns.  Only the redemption fields of a coupon ever change. *)
Theorem rows_never_removed (reqs : list (Env * Request)) (db : Db.t) :
  wf db ->
  exists (new_offers : list Offer.t) (new_coupons : list CouponCode.t),
    Db.offers (run db reqs) = (Db.offers db ++ new_offers)%list /\
    map snapshot (Db.coupons (run db reqs)) =
      (map snapshot (Db.coupons db) ++ map snapshot new_coupons)%list.
Proof.
  revert db. induction reqs as [|[env req] reqs IH]; intros db Hwf.
  - exists [], []. cbn [run map]. rewrite !app_nil_r. auto.
  - cbn [run].
    destruct (handle_grows env db req Hwf) as (o1 & c1 & Ho1 & Hc1).
    destruct (IH _ (wf_handle env db req Hwf)) as (o2 & c2 & Ho2 & Hc2).
    exists (o1 ++ o2)%list, (c1 ++ c2)%list.
    rewrite Ho2, Ho1, Hc2, Hc1, map_app, !app_assoc. auto.
Qed.

Lemma rows_never_removed_witness :
  exists (new_offers : list Offer.t) (new_coupons : list CouponCode.t),
    Db.offers (run Sample.db1
                   [(Sample.env_on 3 Sample.ramp, POST_claim 1);
                    (Sample.env_on 5 Sample.zeros,
                     POST_redeem (Sample.code_form "chip-0000000000"))]) =
      (Db.offers Sample.db1 ++ new_offers)%list /\
    map snapshot
        (Db.coupons (run Sample.db1
                   [(Sample.env_on 3 Sample.ramp, POST_claim 1);
                    (Sample.env_on 5 Sample.zeros,
                     POST_redeem (Sample.code_form "chip-0000000000"))])) =
      (map snapshot (Db.coupons Sample.db1) ++ map snapshot new_coupons)%list.
Proof.
  apply (rows_never_removed
           [(Sample.env_on 3 Sample.ramp, POST_claim 1);
            (Sample.env_on 5 Sample.zeros,
             POST_redeem (Sample.code_form "chip-0000000000"))] Sample.db1).
  exact wf_db1.
Defined.

(** ** Creating an offer *)

Lemma find_app_l {A : Type} (f : A -> bool) (l l' : list A) (a : A) :
  find f l = Some a -> find f (l ++ l') = Some a.
Proof.
  induction l as [|x l IH]; simpl; [discriminate|].
  destruct (f x); [trivial | exact IH].
Qed.

Lemma find_app_r {A : Type} (f : A -> bool) (l l' : list A) :
  find f l = None -> find f (l ++ l') = find f l'.
Proof.
  induction l as [|x l IH]; simpl; [reflexivity|].
  destruct (f x); [discriminate | exact IH].
Qed.

Lemma get_offer_next_id (db : Db.t) :
  Db.get_offer db (Db.next_id (map Offer.id (Db.offers db))) = None.
Proof.
  apply get_offer_absent. intros o Hin Hid.
  apply (next_id_fresh (map Offer.id (Db.offers db))).
  rewrite <- Hid. apply in_map. exact Hin.
Qed.

(** X5: [create_offer] refuses a form that lacks one of the three fields
    (400 of the framework), a form with a field that is blank after trimming
    (400, "All fields required"), and a date that does not parse (400, "Date
    must be YYYY-MM-DD"); in each case nothing is stored. *)
Theorem create_offer_rejects (env : Env) (db : Db.t) (form : MultiDict) :
  (get form "restaurant" = None \/ get form "description" = None \/
   get form "expires" = None ->
   create_offer_post env db form = (db, Abort 400)) /\
  (forall r d e : string,
      get form "restaurant" = Some r ->
      get form "description" = Some d ->
      get form "expires" = Some e ->
      (Py.strip r = "" \/ Py.strip d = "" \/ Py.strip e = "" ->
       create_offer_post env db form = (db, Text 400 "All fields required")) /\
      (Py.strip r <> "" -> Py.strip d <> "" -> Py.strip e <> "" ->
       strptime env (Py.strip e) "%Y-%m-%d" = None ->
       create_offer_post env db form = (db, Text 400 "Date must be YYYY-MM-DD"))).
Proof.
  split.
  - intros H. unfold create_offer_post.
    destruct (get form "restaurant"); [|reflexivity].
    destruct (get form "description"); [|reflexivity].
    destruct (get form "expires"); [|reflexivity].
    destruct H as [H|[H|H]]; discriminate H.
  - intros r d e Hr Hd He. unfold create_offer_post. rewrite Hr, Hd, He. split.
    + intros H.
      assert (Hb : Py.truthy (Py.strip r) && Py.truthy (Py.strip d)
                   && Py.truthy (Py.strip e) = false).
      { destruct H as [H|[H|H]]; apply truthy_false_iff in H; rewrite H;
          rewrite ?andb_false_r; reflexivity. }
      rewrite Hb. reflexivity.
    + intros H1 H2 H3 Hp.
      apply truthy_true_iff in H1, H2, H3. rewrite H1, H2, H3, Hp. reflexivity.
Qed.

Lemma create_offer_rejects_witness :
  create_offer_post (Sample.env_on 3 Sample.zeros) Sample.db0
                    [("restaurant", "Subway"); ("expires", "2025-12-01")] =
    (Sample.db0, Abort 400) /\
  create_offer_post (Sample.env_on 3 Sample.zeros) Sample.db0
                    [("restaurant", "Subway"); ("description", "  ");
                     ("expires", "2025-12-01")] =
    (Sample.db0, Text 400 "All fields required") /\
  create_offer_post (Sample.env_on 3 Sample.zeros) Sample.db0
                    [("restaurant", "Subway"); ("description", "Free cookie");
                     ("expires", "tomorrow")] =
    (Sample.db0, Text 400 "Date must be YYYY-MM-DD").
Proof.
  split; [|split].
  - apply (proj1 (create_offer_rejects _ _ _)). right. left. reflexivity.
  - refine (proj1 (proj2 (create_offer_rejects (Sample.env_on 3 Sample.zeros) Sample.db0
              [("restaurant", "Subway"); ("description", "  ");
               ("expires", "2025-12-01")])
              "Subway" "  " "2025-12-01" _ _ _) _); try reflexivity.
    right. left. reflexivity.
  - refine (proj2 (proj2 (create_offer_rejects (Sample.env_on 3 Sample.zeros) Sample.db0
              [("restaurant", "Subway"); ("description", "Free cookie");
               ("expires", "tomorrow")])
              "Subway" "Free cookie" "tomorrow" _ _ _) _ _ _ _);
      try reflexivity; discriminate.
Defined.

(** X6: a form with three fields that are not blank and a date that parses
    stores exactly one new offer: the trimmed restaurant and description,
    the parsed date, the current UTC time, and a key above every key in use;
    the answer is a redirect to the home page.  The date is not compared
    with today.  The new offer is found under its key, every offer found
    before is still found under its key, and no coupon is touched. *)
Theorem create_offer_stores
        (env : Env) (db : Db.t) (form : MultiDict) (r d e : string) (x : Datetime.date) :
  get form "restaurant" = Some r ->
  get form "description" = Some d ->
  get form "expires" = Some e ->
  Py.strip r <> "" -> Py.strip d <> "" -> Py.strip e <> "" ->
  strptime env (Py.strip e) "%Y-%m-%d" = Some x ->
  create_offer_post env db form =
    (Db.mk (Db.offers db ++ [created_offer env db r d x])%list (Db.coupons db),
     Redirect (url_for env "home" [])) /\
  (forall o : Offer.t, In o (Db.offers db) ->
      forall i : Z, Offer.id o = Some i ->
                    i < Db.next_id (map Offer.id (Db.offers db))) /\
  Db.get_offer (fst (create_offer_post env db form))
               (Db.next_id (map Offer.id (Db.offers db))) =
    Some (created_offer env db r d x) /\
  (forall (i : Z) (o : Offer.t),
      Db.get_offer db i = Some o ->
      Db.get_offer (fst (create_offer_post env db form)) i = Some o).
Proof.
  intros Hr Hd He H1 H2 H3 Hp.
  assert (Heq : create_offer_post env db form =
    (Db.mk (Db.offers db ++ [created_offer env db r d x])%list (Db.coupons db),
     Redirect (url_for env "home" []))).
  { unfold create_offer_post. rewrite Hr, Hd, He.
    apply truthy_true_iff in H1, H2, H3. rewrite H1, H2, H3, Hp. reflexivity. }
  rewrite Heq. cbn [fst]. split; [reflexivity|]. split; [|split].
  - intros o Hin i Hi. apply next_id_above. rewrite <- Hi. apply in_map. exact Hin.
  - unfold Db.get_offer. cbn [Db.offers].
    rewrite find_app_r by apply get_offer_next_id.
    cbn [find created_offer Offer.id Db.opt_Z_eqb]. rewrite Z.eqb_refl. reflexivity.
  - intros i o Hi. unfold Db.get_offer. cbn [Db.offers].
    apply find_app_l. exact Hi.
Qed.

Lemma create_offer_stores_witness :
  create_offer_post
    (mkEnv (Sample.nov 9) (Sample.at_noon (Sample.nov 9)) Sample.zeros Sample.local_url
           (fun _ _ => Some (Sample.nov 5)))
    Sample.db1
    [("restaurant", " Subway "); ("description", "Free cookie"); ("expires", "2025-11-05")] =
  (Db.mk [Sample.chipotle;
          Offer.mk (Some 2) "Subway" "Free cookie" (Sample.nov 5)
                   (Some (Sample.at_noon (Sample.nov 9)))]
         (Db.coupons Sample.db1),
   Redirect "http://localhost:5001/home").
Proof.
  refine (proj1 (create_offer_stores
    (mkEnv (Sample.nov 9) (Sample.at_noon (Sample.nov 9)) Sample.zeros Sample.local_url
           (fun _ _ => Some (Sample.nov 5)))
    Sample.db1
    [("restaurant", " Subway "); ("description", "Free cookie"); ("expires", "2025-11-05")]
    " Subway " "Free cookie" "2025-11-05" (Sample.nov 5) _ _ _ _ _ _ _));
    try reflexivity; discriminate.
Defined.

(** ** The seed *)

Lemma create_offer_cases (env : Env) (db : Db.t) (form : MultiDict) :
  fst (create_offer_post env db form) = db \/
  exists (r d : string) (x : Datetime.date),
    fst (create_offer_post env db form) =
    Db.mk (Db.offers db ++ [created_offer env db r d x])%list (Db.coupons db).
Proof.
  unfold create_offer_post.
  destruct (get form "restaurant") as [r|]; [|left; reflexivity].
  destruct (get form "description") as [d|]; [|left; reflexivity].
  destruct (get form "expires") as [e|]; [|left; reflexivity].
  destruct (negb _); [left; reflexivity|].
  destruct (strptime env _ _) as [x|]; [|left; reflexivity].
  right. exists r, d, x. reflexivity.
Qed.

(** The offers after a request are the offers before it, followed by at
    most one new offer. *)
Lemma handle_offers (env : Env) (db : Db.t) (req : Request) :
  Db.offers (fst (handle env db req)) = Db.offers db \/
  exists (r d : string) (x : Datetime.date),
    Db.offers (fst (handle env db req)) =
    (Db.offers db ++ [created_offer env db r d x])%list.
Proof.
  destruct req; cbn [handle fst]; try (left; reflexivity).
  - destruct (create_offer_cases env db form) as [->|(r & d & x & ->)];
      [left; reflexivity | right; exists r, d, x; reflexivity].
  - left. apply claim_offer_offers.
  - left. rewrite route_view_coupon_reads. reflexivity.
  - left. rewrite route_coupon_qr_reads. reflexivity.
  - left. apply redeem_offers.
Qed.

Lemma run_keeps_offers_nonempty (reqs : list (Env * Request)) (db : Db.t) :
  Db.offers db <> [] -> Db.offers (run db reqs) <> [].
Proof.
  revert db. induction reqs as [|[env req] reqs IH]; intros db H; [exact H|].
  cbn [run]. apply IH.
  destruct (handle_offers env db req) as [->|(r & d & x & ->)]; [exact H|].
  destruct (Db.offers db); [contradiction | discriminate].
Qed.

(** X7: the boot seed writes only into an empty offer table: there it
    stores the one sample offer under the key 1; a table that holds an offer
    is left as it is.  So running the boot code again, after any requests,
    changes nothing. *)
Theorem seed_only_when_empty
        (now now' : Datetime.datetime) (db : Db.t) (reqs : list (Env * Request)) :
  (Db.offers db = [] ->
   seed now db =
   Db.mk [Offer.mk (Some 1) "Chipotle" "Free chips" (Datetime.mkDate 2025 11 5) (Some now)]
         (Db.coupons db)) /\
  (Db.offers db <> [] -> seed now db = db) /\
  seed now' (run (seed now db) reqs) = run (seed now db) reqs.
Proof.
  assert (Hfull : forall d : Db.t, Db.offers d <> [] -> seed now' d = d).
  { intros d Hd. unfold seed. destruct (Db.offers d); [contradiction | reflexivity]. }
  split; [|split].
  - intros H. unfold seed. rewrite H. destruct db as [offers coupons].
    cbn [Db.offers] in H. subst offers. reflexivity.
  - intros H. unfold seed. destruct (Db.offers db); [contradiction | reflexivity].
  - apply Hfull, run_keeps_offers_nonempty.
    unfold seed. destruct (Db.offers db) eqn:E; [|rewrite E; discriminate].
    cbn [Db.add_offer Py.ret Db.offers]. rewrite E. discriminate.
Qed.

Lemma seed_only_when_empty_witness :
  seed (Sample.at_noon (Sample.nov 2)) Sample.db1 = Sample.db1.
Proof.
  apply (proj1 (proj2 (seed_only_when_empty (Sample.at_noon (Sample.nov 2))
                         (Sample.at_noon (Sample.nov 2)) Sample.db1 []))).
  discriminate.
Defined.

(** ** The code of an issued coupon *)

Lemma upper_app (a b : string) : Py.upper (a ++ b) = Py.upper a ++ Py.upper b.
Proof.
  induction a as [|c a IH]; simpl; [reflexivity | rewrite IH; reflexivity].
Qed.

Lemma upper_hex_char_fixed (c : ascii) :
  is_upper_hex c = true -> Py.upper_char c = c /\ Py.isspace c = false.
Proof.
  intros H. destruct c as [[] [] [] [] [] [] [] []];
    try discriminate H; split; reflexivity.
Qed.

Lemma upper_hex_fixed (t : string) :
  string_forallb is_upper_hex t = true ->
  Py.upper t = t /\ string_forallb (fun c => negb (Py.isspace c)) t = true.
Proof.
  induction t as [|c t IH]; simpl; [auto|].
  intros H. apply andb_true_iff in H. destruct H as [Hc Ht].
  destruct (upper_hex_char_fixed c Hc) as [Hu Hs].
  destruct (IH Ht) as [IH1 IH2]. rewrite Hu, Hs, IH1, IH2. auto.
Qed.

Lemma rstrip_no_space (s : string) :
  string_forallb (fun c => negb (Py.isspace c)) s = true -> Py.rstrip s = s.
Proof.
  induction s as [|c s IH]; simpl; [reflexivity|].
  intros H. apply andb_true_iff in H. destruct H as [Hc Hs].
  rewrite (IH Hs). apply negb_true_iff in Hc. rewrite Hc.
  destruct s; reflexivity.
Qed.

Lemma rstrip_app (a b : string) :
  b <> "" -> Py.rstrip b = b -> Py.rstrip (a ++ b) = a ++ b.
Proof.
  intros Hne Hb. induction a as [|c a IH]; [exact Hb|].
  cbn [append Py.rstrip]. rewrite IH.
  destruct (a ++ b) as [|c' r] eqn:E; [|reflexivity].
  destruct a; [simpl in E; contradiction | discriminate E].
Qed.

Lemma take_length (n : nat) (s : string) :
  String.length (Py.take n s) = Nat.min n (String.length s).
Proof.
  revert s. induction n as [|n IH]; intros [|c s]; simpl; auto.
Qed.

Lemma append_length (a b : string) :
  String.length (a ++ b) = (String.length a + String.length b)%nat.
Proof.
  induction a as [|c a IH]; simpl; [reflexivity | rewrite IH; reflexivity].
Qed.

Lemma append_inj_l (p a b : string) : p ++ a = p ++ b -> a = b.
Proof.
  induction p as [|c p IH]; simpl; [trivial|]. intros H. injection H as H. auto.
Qed.

(** A candidate is the prefix, a dash and ten uppercase hexadecimal digits. *)
Lemma candidate_shape (rnd : Secrets.entropy) (prefix s : string) :
  In s (candidates rnd prefix) ->
  exists token : string,
    s = prefix ++ "-" ++ token /\
    String.length token = 10%nat /\
    string_forallb is_upper_hex token = true.
Proof.
  unfold candidates. intros H. apply in_map_iff in H. destruct H as (i & <- & _).
  rewrite candidate_eq. unfold candidate_at.
  exists (Py.upper (Secrets.hex (map rnd (seq (5 * i) 5)))).
  split; [reflexivity|]. split; [|apply upper_hex_alphabet].
  rewrite upper_length, hex_length, length_map, length_seq. reflexivity.
Qed.

(** What a successful claim returns and stores, in one place. *)
Lemma claim_ok_inv (env : Env) (db : Db.t) (offer_id : Z) :
  status_code (snd (claim_offer env db offer_id)) = 200 ->
  exists (offer : Offer.t) (k : string),
    Db.get_offer db offer_id = Some offer /\
    In k (candidates (urandom env) (coupon_prefix offer)) /\
    stored db k = false /\
    claim_offer env db offer_id =
      (Db.mk (Db.offers db) (Db.coupons db ++ [issued_row env db offer k])%list,
       Json 200 (claim_json env k (issued_row env db offer k))).
Proof.
  intros Hok. destruct (Db.get_offer db offer_id) as [offer|] eqn:Hget.
  - rewrite (claim_offer_found env db offer_id offer Hget) in *.
    destruct (first_fresh env db offer) as [k|] eqn:E; [|discriminate Hok].
    exists offer, k. split; [reflexivity|].
    split; [|split; [exact (first_fresh_stored _ _ _ _ E) | reflexivity]].
    unfold first_fresh in E. apply find_some in E. tauto.
  - destruct (claim_offer_absent env db offer_id Hget) as [_ [H|H]];
      rewrite H in Hok; discriminate Hok.
Qed.

(** X8: for an offer whose restaurant name is ASCII text, the code of an
    issued coupon is the first four characters of the name in uppercase, a
    dash, and ten characters from 0-9A-F; it has at most fifteen
    characters. *)
Theorem claim_code_format (env : Env) (db : Db.t) (offer_id : Z) (offer : Offer.t) :
  Db.get_offer db offer_id = Some offer ->
  is_ascii (Offer.restaurant offer) = true ->
  status_code (snd (claim_offer env db offer_id)) = 200 ->
  exists (c : CouponCode.t) (token : string),
    Db.coupons (fst (claim_offer env db offer_id)) = (Db.coupons db ++ [c])%list /\
    CouponCode.code c =
      Some (Py.upper (Py.slice_to (Offer.restaurant offer) 4) ++ "-" ++ token) /\
    String.length token = 10%nat /\
    string_forallb is_upper_hex token = true /\
    String.length (Py.upper (Py.slice_to (Offer.restaurant offer) 4) ++ "-" ++ token) =
      (Nat.min 4 (String.length (Offer.restaurant offer)) + 11)%nat.
Proof.
  intros Hget _ Hok.
  destruct (claim_ok_inv env db offer_id Hok) as (offer' & k & Hget' & Hin & _ & Heq).
  assert (offer' = offer) by congruence. subst offer'.
  destruct (candidate_shape _ _ _ Hin) as (token & Hk & Hlen & Halpha).
  exists (issued_row env db offer k), token. rewrite Heq.
  cbn [fst Db.coupons issued_row CouponCode.code].
  split; [reflexivity|]. split; [rewrite Hk; reflexivity|].
  split; [exact Hlen|]. split; [exact Halpha|].
  rewrite !append_length, upper_length, Hlen. unfold Py.slice_to.
  cbn [Z.leb Z.compare Z.to_nat Pos.to_nat Pos.iter_op Nat.add String.length].
  rewrite take_length. lia.
Qed.

Lemma claim_code_format_witness :
  exists (c : CouponCode.t) (token : string),
    Db.coupons (fst (claim_offer (Sample.env_on 3 Sample.ramp) Sample.db1 1)) =
      (Db.coupons Sample.db1 ++ [c])%list /\
    CouponCode.code c =
      Some (Py.upper (Py.slice_to (Offer.restaurant Sample.chipotle) 4) ++ "-" ++ token) /\
    String.length token = 10%nat /\
    string_forallb is_upper_hex token = true /\
    String.length (Py.upper (Py.slice_to (Offer.restaurant Sample.chipotle) 4)
                   ++ "-" ++ token) =
      (Nat.min 4 (String.length (Offer.restaurant Sample.chipotle)) + 11)%nat.
Proof.
  apply (claim_code_format (Sample.env_on 3 Sample.ramp) Sample.db1 1 Sample.chipotle).
  - reflexivity.
  - reflexivity.
  - reflexivity.
Defined.

(** ** Looking up what was issued *)

Lemma first_by_code_issued (db : Db.t) (c : CouponCode.t) (k : string) :
  stored db k = false -> CouponCode.code c = Some k ->
  Db.first_by_code (Db.mk (Db.offers db) (Db.coupons db ++ [c])%list) k = Some c.
Proof.
  intros Hs Hc. unfold Db.first_by_code. cbn [Db.coupons].
  rewrite find_app_r by (apply first_by_code_stored; exact Hs).
  cbn [find]. rewrite (proj2 (opt_string_eqb_iff _ _) Hc). reflexivity.
Qed.

Lemma dash_code_nonempty (prefix token : string) : prefix ++ "-" ++ token <> "".
Proof.
  destruct prefix; discriminate.
Qed.




(** ** Redeeming what was issued *)

Lemma redeem_after_claim
      (env env2 : Env) (db : Db.t) (offer : Offer.t) (k : string) (form : MultiDict) :
  stored db k = false -> k <> "" -> lookup_code form = k ->
  redeem_status env2
    (Db.mk (Db.offers db) (Db.coupons db ++ [issued_row env db offer k])%list) form =
  if Datetime.gt (today env2) (Offer.expires offer) then 410 else 200.
Proof.
  intros Hs Hne Hk. unfold redeem_status.
  rewrite (redeem_found env2 _ form (issued_row env db offer k)).
  - unfold CouponCode.is_expired. cbn [issued_row CouponCode.expires].
    destruct (Datetime.gt (today env2) (Offer.expires offer)); reflexivity.
  - congruence.
  - rewrite Hk. apply first_by_code_issued; [exact Hs | reflexivity].
Qed.

(** X10: a coupon expires with the offer it was claimed from, whenever the
    claim was made: once a claim has succeeded, a redeem request whose
    normalised code is the issued code is answered 410 on every day after
    the offer's expiration date, and 200 on every other day.  The claim
    itself does not look at the date. *)
Theorem claimed_coupon_redeem (env : Env) (db : Db.t) (offer_id : Z) (offer : Offer.t) :
  Db.get_offer db offer_id = Some offer ->
  status_code (snd (claim_offer env db offer_id)) = 200 ->
  exists (c : CouponCode.t) (k : string),
    Db.coupons (fst (claim_offer env db offer_id)) = (Db.coupons db ++ [c])%list /\
    CouponCode.code c = Some k /\
    forall (env2 : Env) (form : MultiDict),
      lookup_code form = k ->
      (date_before (Offer.expires offer) (today env2) ->
       redeem_status env2 (fst (claim_offer env db offer_id)) form = 410) /\
      (~ date_before (Offer.expires offer) (today env2) ->
       redeem_status env2 (fst (claim_offer env db offer_id)) form = 200).
Proof.
  intros Hget Hok.
  destruct (claim_ok_inv env db offer_id Hok) as (offer' & k & Hget' & Hin & Hs & Heq).
  assert (offer' = offer) by congruence. subst offer'.
  exists (issued_row env db offer k), k. rewrite Heq. cbn [fst Db.coupons].
  split; [reflexivity|]. split; [reflexivity|].
  intros env2 form Hk.
  assert (Hne : k <> "").
  { destruct (candidate_shape _ _ _ Hin) as (token & -> & _). apply dash_code_nonempty. }
  rewrite (redeem_after_claim env env2 db offer k form Hs Hne Hk).
  destruct (Datetime.gt (today env2) (Offer.expires offer)) eqn:E.
  - split; [reflexivity|]. intros Hn. exfalso. apply Hn, gt_spec, E.
  - split; [|reflexivity]. intros Hb. apply gt_spec in Hb. congruence.
Qed.

Lemma claimed_coupon_redeem_witness :
  exists (c : CouponCode.t) (k : string),
    Db.coupons (fst (claim_offer (Sample.env_on 9 Sample.ramp) Sample.db1 1)) =
      (Db.coupons Sample.db1 ++ [c])%list /\
    CouponCode.code c = Some k /\
    forall (env2 : Env) (form : MultiDict),
      lookup_code form = k ->
      (date_before (Offer.expires Sample.chipotle) (today env2) ->
       redeem_status env2 (fst (claim_offer (Sample.env_on 9 Sample.ramp) Sample.db1 1))
                     form = 410) /\
      (~ date_before (Offer.expires Sample.chipotle) (today env2) ->
       redeem_status env2 (fst (claim_offer (Sample.env_on 9 Sample.ramp) Sample.db1 1))
                     form = 200).
Proof.
  apply (claimed_coupon_redeem (Sample.env_on 9 Sample.ramp) Sample.db1 1 Sample.chipotle).
  - reflexivity.
  - reflexivity.
Defined.

(** The offers of every state reached from the boot have trimmed names. *)
Lemma offers_clean_handle (env : Env) (db : Db.t) (req : Request) :
  offers_clean db -> offers_clean (fst (handle env db req)).
Proof.
  intros H o Hin.
  destruct (handle_offers env db req) as [E|(r & d & x & E)]; rewrite E in Hin.
  - apply H, Hin.
  - apply in_app_iff in Hin. destruct Hin as [Hin|[<-|[]]]; [apply H, Hin|].
    apply strip_clean.
Qed.

Lemma offers_clean_run (reqs : list (Env * Request)) (db : Db.t) :
  offers_clean db -> offers_clean (run db reqs).
Proof.
  revert db. induction reqs as [|[env req] reqs IH]; intros db H; [exact H|].
  cbn [run]. apply IH, offers_clean_handle, H.
Qed.

Lemma offers_clean_boot (now : Datetime.datetime) (reqs : list (Env * Request)) :
  offers_clean (run (seed now Db.empty) reqs).
Proof.
  apply offers_clean_run. intros o [<-|[]]. reflexivity.
Qed.

(** A code made from a trimmed restaurant name is its own normal form. *)
Lemma issued_code_normal (restaurant token : string) :
  no_leading_space restaurant ->
  string_forallb is_upper_hex token = true ->
  Py.upper (Py.strip (Py.upper (Py.slice_to restaurant 4) ++ "-" ++ token)) =
  Py.upper (Py.slice_to restaurant 4) ++ "-" ++ token.
Proof.
  intros Hclean Halpha.
  destruct (upper_hex_fixed token Halpha) as [Hup Hns].
  set (prefix := Py.upper (Py.slice_to restaurant 4)).
  assert (Hr : Py.rstrip (prefix ++ "-" ++ token) = prefix ++ "-" ++ token).
  { apply rstrip_app; [discriminate|].
    apply rstrip_no_space. cbn [append string_forallb]. rewrite Hns. reflexivity. }
  assert (Hl : no_leading_space (prefix ++ "-" ++ token)).
  { unfold prefix. change (Py.slice_to restaurant 4) with (Py.take 4 restaurant).
    destruct restaurant as [|c r]; [reflexivity|].
    cbn [Py.take Py.upper append no_leading_space] in *.
    rewrite isspace_upper_char. exact Hclean. }
  unfold Py.strip. rewrite Hr, (lstrip_fixed _ Hl), !upper_app.
  unfold prefix. rewrite upper_idem. cbn [Py.upper]. rewrite Hup. reflexivity.
Qed.

(** X11: in every state that the application reaches from its boot, the
    code returned by a successful claim can be submitted as it is: redeem's
    trimming and uppercasing leave it unchanged, so on any day that is not
    after the expiration date the redemption of that code succeeds. *)
Theorem issued_code_accepted_verbatim
        (now : Datetime.datetime) (reqs : list (Env * Request))
        (env : Env) (offer_id : Z) :
  status_code (snd (claim_offer env (run (seed now Db.empty) reqs) offer_id)) = 200 ->
  exists (c : CouponCode.t) (k : string),
    Db.coupons (fst (claim_offer env (run (seed now Db.empty) reqs) offer_id)) =
      (Db.coupons (run (seed now Db.empty) reqs) ++ [c])%list /\
    CouponCode.code c = Some k /\
    (forall who : string, lookup_code (redeem_form k who) = k) /\
    (forall (env2 : Env) (who : string),
        ~ date_before (CouponCode.expires c) (today env2) ->
        redeem_status env2
          (fst (claim_offer env (run (seed now Db.empty) reqs) offer_id))
          (redeem_form k who) = 200).
Proof.
  set (db := run (seed now Db.empty) reqs). intros Hok.
  destruct (claim_ok_inv env db offer_id Hok) as (offer & k & Hget & Hin & Hs & Heq).
  exists (issued_row env db offer k), k. rewrite Heq. cbn [fst Db.coupons].
  destruct (candidate_shape _ _ _ Hin) as (token & Hk & _ & Halpha).
  assert (Hnorm : forall who, lookup_code (redeem_form k who) = k).
  { intros who. rewrite lookup_code_redeem_form, Hk. apply issued_code_normal; [|exact Halpha].
    apply (offers_clean_boot now reqs), (get_offer_id _ _ _ Hget). }
  split; [reflexivity|]. split; [reflexivity|]. split; [exact Hnorm|].
  intros env2 who Hlive. cbn [issued_row CouponCode.expires] in Hlive.
  rewrite (redeem_after_claim env env2 db offer k _ Hs); [| |apply Hnorm].
  - destruct (Datetime.gt (today env2) (Offer.expires offer)) eqn:E; [|reflexivity].
    exfalso. apply Hlive, gt_spec, E.
  - rewrite Hk. apply dash_code_nonempty.
Qed.

Lemma issued_code_accepted_verbatim_witness :
  exists (c : CouponCode.t) (k : string),
    Db.coupons (fst (claim_offer (Sample.env_on 3 Sample.ramp)
                       (run (seed (Sample.at_noon (Sample.nov 1)) Db.empty) []) 1)) =
      (Db.coupons (run (seed (Sample.at_noon (Sample.nov 1)) Db.empty) []) ++ [c])%list /\
    CouponCode.code c = Some k /\
    (forall who : string, lookup_code (redeem_form k who) = k) /\
    (forall (env2 : Env) (who : string),
        ~ date_before (CouponCode.expires c) (today env2) ->
        redeem_status env2
          (fst (claim_offer (Sample.env_on 3 Sample.ramp)
                  (run (seed (Sample.at_noon (Sample.nov 1)) Db.empty) []) 1))
          (redeem_form k who) = 200).
Proof.
  apply (issued_code_accepted_verbatim (Sample.at_noon (Sample.nov 1)) []
           (Sample.env_on 3 Sample.ramp) 1).
  reflexivity.
Defined.

(** ** Collisions of generated codes *)

Lemma hex_value_byte (b : byte) :
  (hex_value (Py.upper_char (Secrets.hexdigit (Byte.to_N b / 16))) * 16 +
   hex_value (Py.upper_char (Secrets.hexdigit (Byte.to_N b mod 16))))%N = Byte.to_N b.
Proof.
  destruct b; vm_compute; reflexivity.
Qed.

Lemma byte_to_N_inj (a b : byte) : Byte.to_N a = Byte.to_N b -> a = b.
Proof.
  intros H. pose proof (Byte.of_to_N a) as Ha. rewrite H, Byte.of_to_N in Ha.
  congruence.
Qed.

Lemma upper_hex_inj (bs bs' : list byte) :
  Py.upper (Secrets.hex bs) = Py.upper (Secrets.hex bs') -> bs = bs'.
Proof.
  revert bs'. induction bs as [|b bs IH]; intros [|b' bs'] H;
    try reflexivity; try discriminate H.
  cbn [Secrets.hex Py.upper] in H. injection H as Hhi Hlo Hrest.
  f_equal; [|apply IH, Hrest].
  apply byte_to_N_inj. rewrite <- (hex_value_byte b), <- (hex_value_byte b').
  rewrite Hhi, Hlo. reflexivity.
Qed.

(** X12: two codes generated with the same prefix and length are equal
    exactly when the random bytes that were read are equal: different random
    bytes never give the same code. *)
Theorem generate_code_collision
        (rnd rnd' : Secrets.entropy) (pos pos' n n' : nat)
        (prefix s s' : string) (length : Z) :
  generate_code rnd pos prefix length = inr (s, n) ->
  generate_code rnd' pos' prefix length = inr (s', n') ->
  (s = s' <->
   map rnd (seq pos (Z.to_nat (length / 2))) =
   map rnd' (seq pos' (Z.to_nat (length / 2)))).
Proof.
  intros H H'.
  assert (Hlen : 0 <= length).
  { destruct (Z_lt_le_dec length 0) as [Hneg|Hpos]; [|exact Hpos].
    rewrite generate_code_negative_length in H by exact Hneg. discriminate H. }
  rewrite (proj1 (generate_code_token rnd pos prefix length Hlen)) in H.
  rewrite (proj1 (generate_code_token rnd' pos' prefix length Hlen)) in H'.
  injection H as <- _. injection H' as <- _. split.
  - intros E. apply append_inj_l in E. cbn [append] in E. injection E as E.
    apply upper_hex_inj, E.
  - intros ->. reflexivity.
Qed.

Lemma generate_code_collision_witness :
  "CHIP-0B30557A9F" = "CHIP-0000000000" <->
  map Sample.ramp (seq 0 (Z.to_nat (10 / 2))) =
  map Sample.zeros (seq 0 (Z.to_nat (10 / 2))).
Proof.
  apply (generate_code_collision Sample.ramp Sample.zeros 0 0 5 5 "CHIP"
           "CHIP-0B30557A9F" "CHIP-0000000000" 10).
  - reflexivity.
  - reflexivity.
Defined.

(** ** Ordering by creation time *)

Lemma lex_leb_total (a b : list Z) : lex_leb a b = false -> lex_leb b a = true.
Proof.
  revert b. induction a as [|x a IH]; intros [|y b]; simpl; try congruence.
  intros H. apply orb_false_iff in H. destruct H as [Hlt H].
  apply Z.ltb_ge in Hlt. destruct (Z.eqb_spec x y) as [->|Hne].
  - simpl in H. rewrite (IH _ H), Z.eqb_refl, orb_true_r. reflexivity.
  - assert (Hyx : (y <? x) = true) by (apply Z.ltb_lt; lia).
    rewrite Hyx. reflexivity.
Qed.

Lemma lex_leb_trans (a b c : list Z) :
  lex_leb a b = true -> lex_leb b c = true -> lex_leb a c = true.
Proof.
  revert b c. induction a as [|x a IH]; intros [|y b] [|z c]; simpl;
    try congruence.
  intros H1 H2. apply orb_true_iff in H1, H2. apply orb_true_iff.
  destruct H1 as [H1|H1], H2 as [H2|H2].
  - left. apply Z.ltb_lt in H1, H2. apply Z.ltb_lt. lia.
  - apply andb_true_iff in H2. destruct H2 as [H2 _].
    apply Z.eqb_eq in H2. subst. left. exact H1.
  - apply andb_true_iff in H1. destruct H1 as [H1 _].
    apply Z.eqb_eq in H1. subst. left. exact H2.
  - apply andb_true_iff in H1, H2. destruct H1 as [H1 H1'], H2 as [H2 H2'].
    apply Z.eqb_eq in H1, H2. subst. right.
    rewrite Z.eqb_refl, (IH _ _ H1' H2'). reflexivity.
Qed.

Lemma created_leb_total (a b : option Datetime.datetime) :
  created_leb a b = false -> created_leb b a = true.
Proof.
  destruct a as [x|], b as [y|]; cbn [created_leb]; try congruence.
  apply lex_leb_total.
Qed.

Lemma created_leb_trans (a b c : option Datetime.datetime) :
  created_leb a b = true -> created_leb b c = true -> created_leb a c = true.
Proof.
  destruct a as [x|], b as [y|], c as [z|]; cbn [created_leb]; try congruence.
  apply lex_leb_trans.
Qed.

Section Ordering.

Context {A : Type} (key : A -> option Datetime.datetime).

Lemma insert_desc_perm (x : A) (l : list A) :
  Permutation (insert_desc key x l) (x :: l).
Proof.
  induction l as [|y l IH]; simpl; [reflexivity|].
  destruct (created_leb (key y) (key x)); [reflexivity|].
  rewrite IH. apply perm_swap.
Qed.

Lemma order_by_created_desc_perm (l : list A) :
  Permutation (order_by_created_desc key l) l.
Proof.
  unfold order_by_created_desc. induction l as [|x l IH]; simpl; [reflexivity|].
  rewrite insert_desc_perm, IH. reflexivity.
Qed.

Lemma insert_desc_sorted (x : A) (l : list A) :
  newest_first key l -> newest_first key (insert_desc key x l).
Proof.
  unfold newest_first. induction 1 as [|y l Hl IH Hy]; simpl.
  - constructor; constructor.
  - destruct (created_leb (key y) (key x)) eqn:E.
    + constructor; [constructor; assumption|].
      constructor; [exact E|].
      rewrite Forall_forall in *. intros z Hz.
      apply (created_leb_trans _ (key y)); [apply Hy, Hz | exact E].
    + constructor; [exact IH|].
      rewrite insert_desc_perm.
      constructor; [apply created_leb_total, E | exact Hy].
Qed.

Lemma order_by_created_desc_sorted (l : list A) :
  newest_first key (order_by_created_desc key l).
Proof.
  unfold order_by_created_desc. induction l as [|x l IH]; simpl.
  - constructor.
  - apply insert_desc_sorted, IH.
Qed.

Lemma newest_first_split (l1 l2 : list A) (a b : A) :
  newest_first key (l1 ++ l2) -> In a l1 -> In b l2 ->
  created_leb (key b) (key a) = true.
Proof.
  unfold newest_first. induction l1 as [|x l1 IH]; simpl; [contradiction|].
  intros H Ha Hb. inversion H as [|? ? Hs Hx]; subst.
  destruct Ha as [->|Ha]; [|apply IH; assumption].
  rewrite Forall_forall in Hx. apply Hx, in_app_iff. right. exact Hb.
Qed.

Lemma newest_first_firstn (n : nat) (l : list A) :
  newest_first key l -> newest_first key (firstn n l).
Proof.
  unfold newest_first. intros H. revert n.
  induction H as [|x l Hl IH Hx]; intros [|n]; simpl; try constructor.
  - apply IH.
  - rewrite Forall_forall in *. intros z Hz. apply Hx.
    rewrite <- (firstn_skipn n l). apply in_app_iff. left. exact Hz.
Qed.

End Ordering.

(** ** LIKE patterns *)

Lemma like_percent_nil (r : string) :
  like (String "%" r) "" = like r "".
Proof.
  cbn. apply orb_false_r.
Qed.

Lemma like_percent_cons (r : string) (d : ascii) (s : string) :
  like (String "%" r) (String d s) = like r (String d s) || like (String "%" r) s.
Proof.
  reflexivity.
Qed.

(** [%] followed by [r] matches when [r] matches some suffix. *)
Lemma like_percent_iff (r s : string) :
  like (String "%" r) s = true <-> exists a t : string, s = a ++ t /\ like r t = true.
Proof.
  induction s as [|d s IH].
  - rewrite like_percent_nil. split.
    + intros H. exists "", "". auto.
    + intros (a & t & Hs & Ht). destruct a; [|discriminate Hs].
      simpl in Hs. subst t. exact Ht.
  - rewrite like_percent_cons, orb_true_iff, IH. split.
    + intros [H|(a & t & -> & Ht)].
      * exists "", (String d s). auto.
      * exists (String d a), t. auto.
    + intros (a & t & Hs & Ht). destruct a as [|c a].
      * simpl in Hs. subst t. left. exact Ht.
      * simpl in Hs. injection Hs as -> ->. right. exists a, t. auto.
Qed.

Lemma like_percent_only (s : string) : like "%" s = true.
Proof.
  apply like_percent_iff. exists s, "". split; [|reflexivity].
  induction s as [|c s IH]; simpl; [reflexivity | rewrite <- IH; reflexivity].
Qed.

(** A run of literal characters matches exactly itself. *)
Lemma like_literal_iff (q r s : string) :
  wild_free q = true ->
  (like (q ++ r) s = true <-> exists t : string, s = q ++ t /\ like r t = true).
Proof.
  unfold wild_free. revert s. induction q as [|c q IH]; intros s Hq.
  - simpl. split; [intros H; exists s; auto | intros (t & -> & H); exact H].
  - cbn [string_forallb] in Hq. apply andb_true_iff in Hq. destruct Hq as [Hc Hq].
    apply andb_true_iff in Hc. destruct Hc as [Hp Hu].
    apply negb_true_iff in Hp, Hu.
    cbn [append like]. rewrite Hp. destruct s as [|d s].
    + split; [discriminate | intros (t & Ht & _); discriminate Ht].
    + rewrite Hu. cbn [orb]. rewrite andb_true_iff, (IH s Hq). split.
      * intros [Hcd (t & -> & Ht)]. apply Ascii.eqb_eq in Hcd. subst d.
        exists t. auto.
      * intros (t & Ht & Hr). injection Ht as -> ->.
        split; [apply Ascii.eqb_refl | exists t; auto].
Qed.

(** A term without wildcards between two [%] matches the strings that
    contain it. *)
Lemma like_contains (q s : string) :
  wild_free q = true ->
  (like ("%" ++ q ++ "%") s = true <-> exists a b : string, s = a ++ q ++ b).
Proof.
  intros Hq. change ("%" ++ q ++ "%") with (String "%" (q ++ "%")).
  rewrite like_percent_iff. split.
  - intros (a & t & -> & Ht). apply (like_literal_iff q "%" t Hq) in Ht.
    destruct Ht as (b & -> & _). exists a, b. reflexivity.
  - intros (a & b & ->). exists a, (q ++ b). split; [reflexivity|].
    apply (like_literal_iff q "%" _ Hq). exists b. split; [reflexivity|].
    apply like_percent_only.
Qed.

Lemma lower_app (a b : string) : lower (a ++ b) = lower a ++ lower b.
Proof.
  induction a as [|c a IH]; simpl; [reflexivity | rewrite IH; reflexivity].
Qed.

Lemma lower_char_wild (c : ascii) :
  negb (Ascii.eqb (lower_char c) "%") && negb (Ascii.eqb (lower_char c) "_") =
  negb (Ascii.eqb c "%") && negb (Ascii.eqb c "_").
Proof.
  destruct c as [[] [] [] [] [] [] [] []]; reflexivity.
Qed.

Lemma wild_free_lower (q : string) : wild_free (lower q) = wild_free q.
Proof.
  unfold wild_free. induction q as [|c q IH]; [reflexivity|].
  cbn [lower string_forallb]. rewrite IH, lower_char_wild. reflexivity.
Qed.

(** For a term without wildcards, [ilike] with the pattern [%term%] is
    containment of the term, ASCII case aside. *)
Lemma ilike_contains (column term : string) :
  wild_free term = true ->
  (ilike column ("%" ++ term ++ "%") = true <->
   exists a b : string, lower column = a ++ lower term ++ b).
Proof.
  intros Hq. unfold ilike.
  change ("%" ++ term ++ "%") with (String "%" (term ++ "%")).
  cbn [lower]. rewrite lower_app.
  change (String (lower_char "%") (lower term ++ lower "%"))
    with ("%" ++ lower term ++ "%").
  apply like_contains. rewrite wild_free_lower. exact Hq.
Qed.

(** ** The listing routes *)

Lemma offers_like_In (db : Db.t) (q : string) (o : Offer.t) :
  In o (offers_like db q) <->
  In o (Db.offers db) /\ ilike (Offer.restaurant o) ("%" ++ q ++ "%") = true.
Proof.
  unfold offers_like. split.
  - intros H. apply (Permutation_in _ (order_by_created_desc_perm _ _)) in H.
    apply filter_In in H. exact H.
  - intros H.
    apply (Permutation_in _ (Permutation_sym (order_by_created_desc_perm _ _))).
    apply filter_In. exact H.
Qed.

Lemma like_accepted (db : Db.t) (q : string) :
  Z.of_nat (String.length q) <= 49998 -> like_refused db q = false.
Proof.
  intros H. unfold like_refused.
  change ("%" ++ q ++ "%") with (String "%" (q ++ "%")).
  cbn [String.length]. rewrite append_length. cbn [String.length].
  destruct (Z.ltb_spec 50000 (Z.of_nat (S (String.length q + 1)))); [lia|].
  reflexivity.
Qed.

Lemma like_refused_long (db : Db.t) (q : string) :
  49998 < Z.of_nat (String.length q) -> Db.offers db <> [] ->
  like_refused db q = true.
Proof.
  intros H Hne. unfold like_refused.
  change ("%" ++ q ++ "%") with (String "%" (q ++ "%")).
  cbn [String.length]. rewrite append_length. cbn [String.length].
  destruct (Z.ltb_spec 50000 (Z.of_nat (S (String.length q + 1)))); [|lia].
  destruct (Db.offers db); [contradiction | reflexivity].
Qed.

(** X13: [/search] trims the parameter [restaurant], taken here as ASCII
    text.  With a missing or blank term it renders an empty list.  With a
    term of at most 49998 bytes it renders the list in which a stored offer
    with an ASCII restaurant name occurs exactly when the name matches the
    pattern [%term%] without regard to case; when all names are ASCII the
    list holds each matching offer as often as it is stored, newest first.
    With a longer term and an offer table that is not empty, the store
    refuses the pattern and the request ends in that error (500). *)
Theorem search_lists_matches (db : Db.t) (args : MultiDict) :
  is_ascii (Py.or_empty (get args "restaurant")) = true ->
  snd (search db args) = Py.strip (Py.or_empty (get args "restaurant")) /\
  (snd (search db args) = "" ->
   fst (search db args) = [] /\ search_route db args = Rendered "search.html") /\
  (snd (search db args) <> "" ->
   Z.of_nat (String.length (snd (search db args))) <= 49998 ->
   search_route db args = Rendered "search.html" /\
   (forall o : Offer.t,
       is_ascii (Offer.restaurant o) = true ->
       (In o (fst (search db args)) <->
        In o (Db.offers db) /\
        ilike (Offer.restaurant o) ("%" ++ snd (search db args) ++ "%") = true)) /\
   (Forall (fun o => is_ascii (Offer.restaurant o) = true) (Db.offers db) ->
    Permutation (fst (search db args))
      (filter (fun o => ilike (Offer.restaurant o) ("%" ++ snd (search db args) ++ "%"))
              (Db.offers db)) /\
    newest_first Offer.created_at (fst (search db args)))) /\
  (49998 < Z.of_nat (String.length (snd (search db args))) ->
   Db.offers db <> [] ->
   search_route db args = Unhandled Py.OperationalError).
Proof.
  intros _. unfold search, search_route. cbn [fst snd].
  set (name := Py.strip (Py.or_empty (get args "restaurant"))).
  split; [reflexivity|]. split; [|split].
  - intros H. rewrite (proj2 (truthy_false_iff _) H). auto.
  - intros H Hlen. rewrite (proj2 (truthy_true_iff _) H), (like_accepted db name Hlen).
    split; [reflexivity|].
    split; [intros o _; apply offers_like_In|].
    intros _.
    split; [apply order_by_created_desc_perm | apply order_by_created_desc_sorted].
  - intros Hlen Hne.
    assert (H : name <> "") by (intros E; rewrite E in Hlen; simpl in Hlen; lia).
    rewrite (proj2 (truthy_true_iff _) H), (like_refused_long db name Hlen Hne).
    reflexivity.
Qed.

Lemma search_lists_matches_witness :
  (fst (search Sample.db1 [("restaurant", "   ")]) = [] /\
   search_route Sample.db1 [("restaurant", "   ")] = Rendered "search.html") /\
  search_route Sample.db1 [("restaurant", " chip ")] = Rendered "search.html" /\
  (In Sample.chipotle (fst (search Sample.db1 [("restaurant", " chip ")])) <->
   In Sample.chipotle (Db.offers Sample.db1) /\
   ilike (Offer.restaurant Sample.chipotle)
         ("%" ++ snd (search Sample.db1 [("restaurant", " chip ")]) ++ "%") = true).
Proof.
  split; [|split].
  - apply (proj1 (proj2 (search_lists_matches Sample.db1 [("restaurant", "   ")]
                           eq_refl))).
    reflexivity.
  - refine (proj1 (proj1 (proj2 (proj2 (search_lists_matches Sample.db1
              [("restaurant", " chip ")] eq_refl))) _ _)).
    + discriminate.
    + simpl. lia.
  - refine (proj1 (proj2 (proj1 (proj2 (proj2 (search_lists_matches Sample.db1
              [("restaurant", " chip ")] eq_refl))) _ _)) Sample.chipotle eq_refl).
    + discriminate.
    + simpl. lia.
Defined.

(** X14: for an ASCII term that is not blank, holds neither [%] nor [_] and
    has at most 49998 bytes, [/search] renders its page, and a stored offer
    with an ASCII restaurant name is listed exactly when the name contains
    the trimmed term, upper and lower case letters taken as equal. *)
Theorem search_is_substring_match (db : Db.t) (args : MultiDict) (o : Offer.t) :
  is_ascii (Py.or_empty (get args "restaurant")) = true ->
  is_ascii (Offer.restaurant o) = true ->
  snd (search db args) <> "" ->
  wild_free (snd (search db args)) = true ->
  Z.of_nat (String.length (snd (search db args))) <= 49998 ->
  search_route db args = Rendered "search.html" /\
  (In o (fst (search db args)) <->
   In o (Db.offers db) /\
   exists a b : string,
     lower (Offer.restaurant o) = a ++ lower (snd (search db args)) ++ b).
Proof.
  intros _ _ Hne Hq Hlen. unfold search, search_route in *. cbn [fst snd] in *.
  rewrite (proj2 (truthy_true_iff _) Hne), (like_accepted db _ Hlen),
          offers_like_In, (ilike_contains _ _ Hq).
  split; reflexivity.
Qed.

Lemma search_is_substring_match_witness :
  search_route Sample.db1 [("restaurant", " POT ")] = Rendered "search.html" /\
  (In Sample.chipotle (fst (search Sample.db1 [("restaurant", " POT ")])) <->
   In Sample.chipotle (Db.offers Sample.db1) /\
   exists a b : string,
     lower (Offer.restaurant Sample.chipotle) =
     a ++ lower (snd (search Sample.db1 [("restaurant", " POT ")])) ++ b).
Proof.
  apply (search_is_substring_match Sample.db1 [("restaurant", " POT ")] Sample.chipotle).
  - reflexivity.
  - reflexivity.
  - discriminate.
  - reflexivity.
  - simpl. lia.
Defined.



(** X16: the home page filters only on the query parameter [restaurants].
    When that parameter is missing or blank, every stored offer is listed,
    whatever else the query string holds, the parameter [restaurant] that
    the page's own search form submits included.  When it is not blank, the
    page lists what [/search] lists for the same term.  The list is ordered
    newest first. *)
Theorem home_reads_restaurants_only (db : Db.t) (args : MultiDict) :
  (get args "restaurants" = None ->
   Permutation (fst (fst (home db args))) (Db.offers db) /\
   snd (home db args) = "") /\
  (forall q : string,
      get args "restaurants" = Some q ->
      (Py.strip q = "" -> Permutation (fst (fst (home db args))) (Db.offers db)) /\
      (Py.strip q <> "" ->
       fst (fst (home db args)) = fst (search db [("restaurant", q)]) /\
       snd (home db args) = Py.strip q)) /\
  newest_first Offer.created_at (fst (fst (home db args))).
Proof.
  unfold home, get_default. cbn [fst snd]. split; [|split].
  - intros ->. split; [|reflexivity].
    change (Py.truthy (Py.strip "")) with false. cbn iota.
    apply order_by_created_desc_perm.
  - intros q ->. split.
    + intros H. rewrite (proj2 (truthy_false_iff _) H).
      apply order_by_created_desc_perm.
    + intros H. rewrite (proj2 (truthy_true_iff _) H). unfold search.
      change (get [("restaurant", q)] "restaurant") with (Some q).
      rewrite or_empty_Some, (proj2 (truthy_true_iff _) H). auto.
  - destruct (Py.truthy _); apply order_by_created_desc_sorted.
Qed.

Lemma home_reads_restaurants_only_witness :
  Permutation (fst (fst (home two_offers [("restaurant", "chip")]))) (Db.offers two_offers) /\
  fst (fst (home two_offers [("restaurants", "chip")])) =
    fst (search two_offers [("restaurant", "chip")]).
Proof.
  split.
  - apply (proj1 (home_reads_restaurants_only two_offers [("restaurant", "chip")])).
    reflexivity.
  - apply (proj2 (proj1 (proj2 (home_reads_restaurants_only two_offers
                                   [("restaurants", "chip")])) "chip" eq_refl)).
    discriminate.
Defined.

(** X17: the home page shows at most 25 coupons, all of them stored, newest
    first; a stored coupon that is not shown was created no later than each
    coupon that is shown. *)
Theorem home_recent_newest (db : Db.t) (args : MultiDict) :
  List.length (snd (fst (home db args))) = Nat.min 25 (List.length (Db.coupons db)) /\
  (forall c : CouponCode.t, In c (snd (fst (home db args))) -> In c (Db.coupons db)) /\
  newest_first CouponCode.created_at (snd (fst (home db args))) /\
  (forall c c' : CouponCode.t,
      In c (snd (fst (home db args))) ->
      In c' (Db.coupons db) -> ~ In c' (snd (fst (home db args))) ->
      created_leb (CouponCode.created_at c') (CouponCode.created_at c) = true).
Proof.
  unfold home. cbn [fst snd].
  set (sorted := order_by_created_desc CouponCode.created_at (Db.coupons db)).
  assert (Hperm : Permutation sorted (Db.coupons db))
    by apply order_by_created_desc_perm.
  assert (Hsorted : newest_first CouponCode.created_at sorted)
    by apply order_by_created_desc_sorted.
  split; [|split; [|split]].
  - rewrite length_firstn, (Permutation_length Hperm). reflexivity.
  - intros c Hc. apply (Permutation_in _ Hperm).
    rewrite <- (firstn_skipn 25 sorted). apply in_app_iff. left. exact Hc.
  - apply newest_first_firstn, Hsorted.
  - intros c c' Hc Hc' Hout.
    apply (newest_first_split CouponCode.created_at (firstn 25 sorted) (skipn 25 sorted));
      [rewrite firstn_skipn; exact Hsorted | exact Hc |].
    apply (Permutation_in _ (Permutation_sym Hperm)) in Hc'.
    rewrite <- (firstn_skipn 25 sorted) in Hc'. apply in_app_iff in Hc'.
    destruct Hc' as [Hc'|Hc']; [contradiction | exact Hc'].
Qed.

Lemma home_recent_newest_witness :
  List.length (snd (fst (home two_offers []))) =
    Nat.min 25 (List.length (Db.coupons two_offers)) /\
  newest_first CouponCode.created_at (snd (fst (home two_offers []))).
Proof.
  split.
  - apply (proj1 (home_recent_newest two_offers [])).
  - apply (proj1 (proj2 (proj2 (home_recent_newest two_offers [])))).
Defined.

(** ** The length given to [generate_code] *)

(** X18: [generate_code] refuses a negative length with ValueError.  For a
    length that is not negative it reads [length // 2] random bytes and
    returns the prefix, a dash and a token over 0-9A-F of [2 * (length // 2)]
    characters, which is the requested length when that is even. *)
Theorem generate_code_by_length
        (rnd : Secrets.entropy) (pos : nat) (prefix : string) (length : Z) :
  (length < 0 -> generate_code rnd pos prefix length = inl Py.ValueError) /\
  (0 <= length ->
   exists token : string,
     generate_code rnd pos prefix length =
       inr (prefix ++ "-" ++ token, (pos + Z.to_nat (length / 2))%nat) /\
     Z.of_nat (String.length token) = 2 * (length / 2) /\
     string_forallb is_upper_hex token = true /\
     (Z.even length = true -> Z.of_nat (String.length token) = length)).
Proof.
  split; [apply generate_code_negative_length|].
  intros Hlen.
  destruct (generate_code_token rnd pos prefix length Hlen) as (Hg & Hl & Ha).
  assert (Hdiv : 0 <= length / 2) by (apply Z.div_pos; lia).
  eexists. split; [exact Hg|].
  assert (Htok : Z.of_nat (String.length
                   (Py.upper (Secrets.hex (map rnd (seq pos (Z.to_nat (length / 2))))))) =
                 2 * (length / 2)) by (rewrite Hl; lia).
  split; [exact Htok|]. split; [exact Ha|].
  intros Heven. rewrite Htok.
  apply Z.even_spec in Heven. destruct Heven as [h ->].
  rewrite (Z.mul_comm 2 h), Z.div_mul by lia. lia.
Qed.

Lemma generate_code_by_length_witness :
  generate_code Sample.ramp 0 "COUP" (-3) = inl Py.ValueError /\
  exists token : string,
    generate_code Sample.ramp 0 "COUP" 8 =
      inr ("COUP" ++ "-" ++ token, (0 + Z.to_nat (8 / 2))%nat) /\
    Z.of_nat (String.length token) = 2 * (8 / 2) /\
    string_forallb is_upper_hex token = true /\
    (Z.even 8 = true -> Z.of_nat (String.length token) = 8).
Proof.
  split.
  - apply (proj1 (generate_code_by_length Sample.ramp 0 "COUP" (-3))). lia.
  - apply (proj2 (generate_code_by_length Sample.ramp 0 "COUP" 8)). lia.
Defined.

(** ** The date in the answer of a claim *)

Lemma digit_mod (x y : Z) : Datetime.digit x = Datetime.digit y -> x mod 10 = y mod 10.
Proof.
  unfold Datetime.digit. intros H. apply (f_equal N_of_ascii) in H.
  assert (Hx : 0 <= x mod 10 < 10) by (apply Z.mod_pos_bound; lia).
  assert (Hy : 0 <= y mod 10 < 10) by (apply Z.mod_pos_bound; lia).
  rewrite !N_ascii_embedding in H by lia. lia.
Qed.

Lemma two_digits_inj (n m : Z) :
  0 <= n < 100 -> 0 <= m < 100 ->
  Datetime.two_digits n = Datetime.two_digits m -> n = m.
Proof.
  intros Hn Hm H. unfold Datetime.two_digits in H. injection H as H1 H0.
  apply digit_mod in H1, H0.
  pose proof (Z.div_mod n 10 ltac:(lia)). pose proof (Z.div_mod m 10 ltac:(lia)).
  assert (0 <= n / 10 < 10) by (split; [apply Z.div_pos | apply Z.div_lt_upper_bound]; lia).
  assert (0 <= m / 10 < 10) by (split; [apply Z.div_pos | apply Z.div_lt_upper_bound]; lia).
  rewrite !Z.mod_small in H1 by lia. lia.
Qed.

Lemma four_digits_inj (n m : Z) :
  0 <= n < 10000 -> 0 <= m < 10000 ->
  Datetime.four_digits n = Datetime.four_digits m -> n = m.
Proof.
  intros Hn Hm H. unfold Datetime.four_digits, Datetime.two_digits in H.
  injection H as H3 H2 H1 H0. apply digit_mod in H3, H2, H1, H0.
  assert (E1 : forall x, x / 100 = x / 10 / 10)
    by (intros x; rewrite Z.div_div by lia; reflexivity).
  assert (E2 : forall x, x / 1000 = x / 10 / 10 / 10)
    by (intros x; rewrite !Z.div_div by lia; reflexivity).
  rewrite !E1, !E2 in *.
  pose proof (Z.div_mod n 10 ltac:(lia)). pose proof (Z.div_mod m 10 ltac:(lia)).
  pose proof (Z.div_mod (n / 10) 10 ltac:(lia)).
  pose proof (Z.div_mod (m / 10) 10 ltac:(lia)).
  pose proof (Z.div_mod (n / 10 / 10) 10 ltac:(lia)).
  pose proof (Z.div_mod (m / 10 / 10) 10 ltac:(lia)).
  pose proof (Z.mod_pos_bound n 10 ltac:(lia)).
  pose proof (Z.mod_pos_bound (n / 10) 10 ltac:(lia)).
  pose proof (Z.mod_pos_bound (n / 10 / 10) 10 ltac:(lia)).
  pose proof (Z.mod_pos_bound m 10 ltac:(lia)).
  pose proof (Z.mod_pos_bound (m / 10) 10 ltac:(lia)).
  pose proof (Z.mod_pos_bound (m / 10 / 10) 10 ltac:(lia)).
  assert (0 <= n / 10 / 10 / 10 < 10) by lia.
  assert (0 <= m / 10 / 10 / 10 < 10) by lia.
  rewrite !(Z.mod_small (_ / 10 / 10 / 10)) in H3 by lia. lia.
Qed.

(** X19: for dates as Python holds them (year 1 to 9999, month 1 to 12, day
    1 to 31) the text that a claim answers under expires has ten
    characters, and two dates with the same text are the same date. *)
Theorem isoformat_injective (a b : Datetime.date) :
  1 <= Datetime.year a <= 9999 -> 1 <= Datetime.month a <= 12 ->
  1 <= Datetime.day a <= 31 ->
  1 <= Datetime.year b <= 9999 -> 1 <= Datetime.month b <= 12 ->
  1 <= Datetime.day b <= 31 ->
  String.length (Datetime.isoformat a) = 10%nat /\
  (Datetime.isoformat a = Datetime.isoformat b -> a = b).
Proof.
  intros Hya Hma Hda Hyb Hmb Hdb. split; [reflexivity|].
  destruct a as [ya ma da], b as [yb mb db]. cbn [Datetime.year Datetime.month Datetime.day] in *.
  unfold Datetime.isoformat. cbn [Datetime.year Datetime.month Datetime.day].
  intros H.
  assert (Hy : Datetime.four_digits ya = Datetime.four_digits yb).
  { unfold Datetime.four_digits, Datetime.two_digits in *. cbn [append] in H.
    injection H as ? ? ? ?. congruence. }
  assert (Hm : Datetime.two_digits ma = Datetime.two_digits mb).
  { unfold Datetime.four_digits, Datetime.two_digits in *. cbn [append] in H.
    injection H as ? ? ? ? ? ?. congruence. }
  assert (Hd : Datetime.two_digits da = Datetime.two_digits db).
  { unfold Datetime.four_digits, Datetime.two_digits in *. cbn [append] in H.
    injection H as ? ? ? ? ? ? ? ?. congruence. }
  apply four_digits_inj in Hy; [|lia|lia].
  apply two_digits_inj in Hm; [|lia|lia].
  apply two_digits_inj in Hd; [|lia|lia].
  congruence.
Qed.

Lemma isoformat_injective_witness :
  String.length (Datetime.isoformat (Sample.nov 5)) = 10%nat /\
  (Datetime.isoformat (Sample.nov 5) = Datetime.isoformat (Sample.nov 5) ->
   Sample.nov 5 = Sample.nov 5).
Proof.
  apply (isoformat_injective (Sample.nov 5) (Sample.nov 5));
    simpl; lia.
Defined.

(** ** From a new offer to its first coupon *)

Lemma create_offer_ok
      (env : Env) (db : Db.t) (form : MultiDict) (r d e : string) (x : Datetime.date) :
  get form "restaurant" = Some r ->
  get form "description" = Some d ->
  get form "expires" = Some e ->
  Py.strip r <> "" -> Py.strip d <> "" -> Py.strip e <> "" ->
  strptime env (Py.strip e) "%Y-%m-%d" = Some x ->
  fst (create_offer_post env db form) =
    Db.mk (Db.offers db ++ [created_offer env db r d x])%list (Db.coupons db) /\
  Db.get_offer (fst (create_offer_post env db form))
               (Db.next_id (map Offer.id (Db.offers db))) =
    Some (created_offer env db r d x).
Proof.
  intros Hr Hd He H1 H2 H3 Hp.
  assert (Heq : fst (create_offer_post env db form) =
    Db.mk (Db.offers db ++ [created_offer env db r d x])%list (Db.coupons db)).
  { unfold create_offer_post. rewrite Hr, Hd, He.
    apply truthy_true_iff in H1, H2, H3. rewrite H1, H2, H3, Hp. reflexivity. }
  rewrite Heq. split; [reflexivity|].
  unfold Db.get_offer. cbn [Db.offers].
  rewrite find_app_r by apply get_offer_next_id.
  cbn [find created_offer Offer.id Db.opt_Z_eqb]. rewrite Z.eqb_refl. reflexivity.
Qed.

(** X20: an offer can be claimed as soon as it is created, whatever its
    date: if one of the ten candidates is unused, the claim of the new key
    succeeds and the coupon carries the trimmed restaurant and description
    and the parsed date of the form. *)
Theorem create_then_claim
        (env env2 : Env) (db : Db.t) (form : MultiDict)
        (r d e s : string) (x : Datetime.date) :
  get form "restaurant" = Some r ->
  get form "description" = Some d ->
  get form "expires" = Some e ->
  Py.strip r <> "" -> Py.strip d <> "" -> Py.strip e <> "" ->
  strptime env (Py.strip e) "%Y-%m-%d" = Some x ->
  In s (candidates (urandom env2) (Py.upper (Py.slice_to (Py.strip r) 4))) ->
  stored db s = false ->
  exists (c : CouponCode.t) (k : string),
    claim_offer env2 (fst (create_offer_post env db form))
                (Db.next_id (map Offer.id (Db.offers db))) =
      (Db.mk (Db.offers db ++ [created_offer env db r d x])%list
             (Db.coupons db ++ [c])%list,
       Json 200 (claim_json env2 k c)) /\
    CouponCode.code c = Some k /\
    CouponCode.offer_id c = Some (Db.next_id (map Offer.id (Db.offers db))) /\
    CouponCode.restaurant c = Py.strip r /\
    CouponCode.description c = Py.strip d /\
    CouponCode.expires c = x /\
    CouponCode.redeemed_at c = None.
Proof.
  intros Hr Hd He H1 H2 H3 Hp Hin Hs.
  destruct (create_offer_ok env db form r d e x Hr Hd He H1 H2 H3 Hp) as [Heq Hget].
  set (db1 := fst (create_offer_post env db form)) in *.
  set (offer := created_offer env db r d x) in *.
  assert (Hstored : forall t, stored db1 t = stored db t)
    by (intros t; unfold stored; rewrite Heq; reflexivity).
  destruct (first_fresh env2 db1 offer) as [k|] eqn:E.
  - exists (issued_row env2 db1 offer k), k.
    rewrite (claim_offer_found env2 db1 _ offer Hget), E, Heq.
    cbn [Db.offers Db.coupons]. repeat (split; [reflexivity|]). reflexivity.
  - exfalso. apply (proj1 (first_fresh_None env2 db1 offer)) with (s := s) in E.
    + rewrite Hstored in E. congruence.
    + exact Hin.
Qed.

Lemma create_then_claim_witness :
  exists (c : CouponCode.t) (k : string),
    claim_offer (Sample.env_on 9 Sample.ramp)
      (fst (create_offer_post
              (mkEnv (Sample.nov 9) (Sample.at_noon (Sample.nov 9)) Sample.zeros
                     Sample.local_url (fun _ _ => Some (Sample.nov 5)))
              Sample.db1
              [("restaurant", " Subway "); ("description", "Free cookie");
               ("expires", "2025-11-05")]))
      (Db.next_id (map Offer.id (Db.offers Sample.db1))) =
      (Db.mk (Db.offers Sample.db1 ++
              [created_offer
                 (mkEnv (Sample.nov 9) (Sample.at_noon (Sample.nov 9)) Sample.zeros
                        Sample.local_url (fun _ _ => Some (Sample.nov 5)))
                 Sample.db1 " Subway " "Free cookie" (Sample.nov 5)])%list
             (Db.coupons Sample.db1 ++ [c])%list,
       Json 200 (claim_json (Sample.env_on 9 Sample.ramp) k c)) /\
    CouponCode.code c = Some k /\
    CouponCode.offer_id c = Some (Db.next_id (map Offer.id (Db.offers Sample.db1))) /\
    CouponCode.restaurant c = Py.strip " Subway " /\
    CouponCode.description c = Py.strip "Free cookie" /\
    CouponCode.expires c = Sample.nov 5 /\
    CouponCode.redeemed_at c = None.
Proof.
  apply (create_then_claim
           (mkEnv (Sample.nov 9) (Sample.at_noon (Sample.nov 9)) Sample.zeros
                  Sample.local_url (fun _ _ => Some (Sample.nov 5)))
           (Sample.env_on 9 Sample.ramp) Sample.db1
           [("restaurant", " Subway "); ("description", "Free cookie");
            ("expires", "2025-11-05")]
           " Subway " "Free cookie" "2025-11-05" "SUBW-0B30557A9F" (Sample.nov 5));
    try reflexivity; try discriminate.
  vm_compute. auto 12.
Defined.

(** ** Primary keys *)

Lemma max_key_seq (a n : nat) :
  (1 <= a)%nat ->
  fold_right (fun (i : option Z) (m : Z) =>
                match i with Some x => Z.max x m | None => m end) 0
             (map (fun i => Some (Z.of_nat i)) (seq a n)) =
  match n with
  | O => 0
  | S _ => Z.of_nat (a + n - 1)
  end.
Proof.
  revert a. induction n as [|n IH]; intros a Ha; [reflexivity|].
  cbn [seq map fold_right]. rewrite IH by lia. destruct n; lia.
Qed.

Lemma next_id_keys_upto (n : nat) : Db.next_id (keys_upto n) = Z.of_nat (S n).
Proof.
  unfold Db.next_id, keys_upto. rewrite max_key_seq by lia. destruct n; lia.
Qed.

Lemma keys_upto_S (n : nat) :
  keys_upto (S n) = (keys_upto n ++ [Some (Z.of_nat (S n))])%list.
Proof.
  unfold keys_upto. rewrite seq_S, map_app. reflexivity.
Qed.

Lemma keys_upto_snoc {A : Type} (id : A -> option Z) (l : list A) (x : A) :
  map id l = keys_upto (List.length l) ->
  id x = Some (Db.next_id (map id l)) ->
  map id (l ++ [x]) = keys_upto (List.length (l ++ [x])).
Proof.
  intros Hl Hx. rewrite map_app, length_app, Nat.add_1_r, keys_upto_S.
  cbn [map List.length]. rewrite Hx, Hl, next_id_keys_upto. reflexivity.
Qed.

Lemma handle_coupon_ids (env : Env) (db : Db.t) (req : Request) :
  wf db ->
  Db.coupons (fst (handle env db req)) = Db.coupons db \/
  map CouponCode.id (Db.coupons (fst (handle env db req))) =
    map CouponCode.id (Db.coupons db) /\
    List.length (Db.coupons (fst (handle env db req))) = List.length (Db.coupons db) \/
  exists c : CouponCode.t,
    Db.coupons (fst (handle env db req)) = (Db.coupons db ++ [c])%list /\
    CouponCode.id c = Some (Db.next_id (map CouponCode.id (Db.coupons db))).
Proof.
  intros Hwf. destruct req; cbn [handle fst]; try (left; reflexivity).
  - left. apply create_offer_coupons.
  - destruct (Db.get_offer db offer_id) as [offer|] eqn:Hget.
    + rewrite (claim_offer_found env db offer_id offer Hget).
      destruct (first_fresh env db offer) as [k|]; [|left; reflexivity].
      right. right. exists (issued_row env db offer k). auto.
    + left. rewrite (proj1 (claim_offer_absent env db offer_id Hget)). reflexivity.
  - left. rewrite route_view_coupon_reads. reflexivity.
  - left. rewrite route_coupon_qr_reads. reflexivity.
  - destruct (Z.eq_dec (redeem_status env db form) 200) as [Hok|Hno].
    + right. left.
      destruct (redeem_ok_inv env db form Hok) as (c & _ & Hf & _ & _ & ->).
      apply first_by_code_In in Hf. destruct Hf as [Hin _].
      destruct (redeemed_row_keeps env form c) as (Hid & Hcode & _).
      destruct (update_coupon_columns db c _ (wf_coupon_ids _ Hwf) Hin Hid Hcode)
        as (_ & Hids & _).
      split; [exact Hids|].
      unfold Db.update_coupon. cbn [Db.coupons]. apply length_map.
    + left. rewrite redeem_error by exact Hno. reflexivity.
Qed.

Lemma keys_dense_handle (env : Env) (db : Db.t) (req : Request) :
  wf db ->
  map Offer.id (Db.offers db) = keys_upto (List.length (Db.offers db)) ->
  map CouponCode.id (Db.coupons db) = keys_upto (List.length (Db.coupons db)) ->
  map Offer.id (Db.offers (fst (handle env db req))) =
    keys_upto (List.length (Db.offers (fst (handle env db req)))) /\
  map CouponCode.id (Db.coupons (fst (handle env db req))) =
    keys_upto (List.length (Db.coupons (fst (handle env db req)))).
Proof.
  intros Hwf Ho Hc. split.
  - destruct (handle_offers env db req) as [->|(r & d & x & ->)]; [exact Ho|].
    apply keys_upto_snoc; [exact Ho | reflexivity].
  - destruct (handle_coupon_ids env db req Hwf) as [->|[[-> ->]|(c & -> & Hid)]];
      [exact Hc | exact Hc |].
    apply keys_upto_snoc; [exact Hc | exact Hid].
Qed.

Lemma keys_dense_run (reqs : list (Env * Request)) (db : Db.t) :
  wf db ->
  map Offer.id (Db.offers db) = keys_upto (List.length (Db.offers db)) ->
  map CouponCode.id (Db.coupons db) = keys_upto (List.length (Db.coupons db)) ->
  map Offer.id (Db.offers (run db reqs)) =
    keys_upto (List.length (Db.offers (run db reqs))) /\
  map CouponCode.id (Db.coupons (run db reqs)) =
    keys_upto (List.length (Db.coupons (run db reqs))).
Proof.
  revert db. induction reqs as [|[env req] reqs IH]; intros db Hwf Ho Hc; [auto|].
  cbn [run]. destruct (keys_dense_handle env db req Hwf Ho Hc) as [Ho' Hc'].
  apply IH; [apply wf_handle, Hwf | exact Ho' | exact Hc'].
Qed.

(** X21: in every state that the application reaches from its boot, the
    keys of the stored offers are 1, 2, ..., n in table order, and so are
    the keys of the stored coupons: keys are handed out in sequence and none
    is ever reused or freed. *)
Theorem keys_are_dense (now : Datetime.datetime) (reqs : list (Env * Request)) :
  map Offer.id (Db.offers (run (seed now Db.empty) reqs)) =
    keys_upto (List.length (Db.offers (run (seed now Db.empty) reqs))) /\
  map CouponCode.id (Db.coupons (run (seed now Db.empty) reqs)) =
    keys_upto (List.length (Db.coupons (run (seed now Db.empty) reqs))).
Proof.
  apply keys_dense_run; [apply wf_seed | reflexivity | reflexivity].
Qed.
